(** * Image-namer: a shallow embedding of [app.py]

    The Flask application stages uploaded images, extracts the most
    prominent OCR line, and on confirmation renames the images after that
    text.  This development embeds the route handlers of [app.py] as
    state-passing functions over a file system and proves the properties
    of the naming policy, the text extractor and the handlers' effects.

    Conventions of the embedding.
    - A Python [str] is a [string]; each [ascii] is the code point of the
      same number (U+0000 to U+00FF), so the tables of [str.isalnum] and
      [str.isspace] below are Python's tables on that range.
    - The file system is a finite map from path strings to file contents.
      A path names a file by the string the code builds for it; directories,
      links and the resolution of dot segments are not part of the model.
      The map stands for the file system where one string names one
      file: statements that compare files, or that say which files a
      request leaves alone, are made for plain file names ([plain_name]),
      whose paths are in normal form.
    - An [except Exception] handler is modelled by the [Raise] outcome of
      the handler monad. *)

From Stdlib Require Import ZArith Ascii String.
From stdpp Require Import gmap strings list pretty.

Local Open Scope string_scope.

(** ** Python's string methods *)

Module PyStr.

Definition code (c : ascii) : N := N_of_ascii c.

Definition between (lo hi : N) (c : ascii) : bool :=
  ((lo <=? code c) && (code c <=? hi))%N.

(** [c.isalnum()]: letters, decimal digits, and the characters with a
    numeric value (superscripts and vulgar fractions). *)
Definition isalnum (c : ascii) : bool :=
  between 48 57 c || between 65 90 c || between 97 122 c
  || between 170 170 c || between 178 179 c || between 181 181 c
  || between 185 186 c || between 188 190 c
  || between 192 214 c || between 216 246 c || between 248 255 c.

(** [c.isspace()] *)
Definition isspace (c : ascii) : bool :=
  between 9 13 c || between 28 32 c || between 133 133 c
  || between 160 160 c.

Global Arguments between : simpl never.
Global Arguments isalnum : simpl never.
Global Arguments isspace : simpl never.

Fixpoint lstrip (s : string) : string :=
  match s with
  | String c s' => if isspace c then lstrip s' else s
  | EmptyString => EmptyString
  end.

Fixpoint rstrip (s : string) : string :=
  match s with
  | String c s' =>
      match rstrip s' with
      | EmptyString => if isspace c then EmptyString else String c EmptyString
      | r => String c r
      end
  | EmptyString => EmptyString
  end.

(** [s.strip()] *)
Definition strip (s : string) : string := lstrip (rstrip s).

(** ["".join(f(c) for c in s)] for a character-valued [f] *)
Fixpoint join_map (f : ascii -> ascii) (s : string) : string :=
  match s with
  | String c s' => String (f c) (join_map f s')
  | EmptyString => EmptyString
  end.

Fixpoint all_chars (p : ascii -> bool) (s : string) : bool :=
  match s with
  | String c s' => p c && all_chars p s'
  | EmptyString => true
  end.

Definition first_char (s : string) : option ascii :=
  match s with String c _ => Some c | EmptyString => None end.

Fixpoint last_char (s : string) : option ascii :=
  match s with
  | String c EmptyString => Some c
  | String _ s' => last_char s'
  | EmptyString => None
  end.

(** [s.startswith(p)] *)
Fixpoint startswith (p s : string) : bool :=
  match p, s with
  | EmptyString, _ => true
  | String a p', String b s' => Ascii.eqb a b && startswith p' s'
  | String _ _, EmptyString => false
  end.

End PyStr.

(** ** [os.path.join] on POSIX *)

Module OsPath.

(** [os.path.join(a, b)]: an absolute [b] discards [a]; otherwise the
    parts are joined with one separator. *)
Definition join (a b : string) : string :=
  if PyStr.startswith "/" b then b
  else match PyStr.last_char a with
       | None => b
       | Some c => if Ascii.eqb c "/" then a +:+ b else a +:+ "/" +:+ b
       end.

(** [path.split('/')]; [cur] is the component read so far. *)
Fixpoint split_sep (cur path : string) : list string :=
  match path with
  | EmptyString => [cur]
  | String c path' =>
      if Ascii.eqb c "/" then cur :: split_sep "" path'
      else split_sep (cur +:+ String c "") path'
  end.

(** One turn of the loop of [normpath]; [new_comps] is kept in reverse,
    its head being the last component. *)
Definition norm_comp (absolute : bool) (new_comps : list string)
    (comp : string) : list string :=
  if String.eqb comp "" || String.eqb comp "." then new_comps
  else if negb (String.eqb comp "..")
          || (negb absolute && bool_decide (new_comps = []))
          || bool_decide (head new_comps = Some "..")
       then comp :: new_comps
       else tail new_comps.

(** [os.path.normpath(path)] on POSIX: empty and [.] components are
    dropped and a [..] component takes back the one before it.  When no
    directory on the way is a symbolic link, the result names the file that
    the operating system finds at [path]. *)
Definition normpath (path : string) : string :=
  if String.eqb path "" then "." else
  let initial_slashes :=
    if PyStr.startswith "/" path then
      if PyStr.startswith "//" path && negb (PyStr.startswith "///" path)
      then "//" else "/"
    else "" in
  let absolute := PyStr.startswith "/" path in
  let comps := fold_left (norm_comp absolute) (split_sep "" path) [] in
  let path := initial_slashes +:+ String.concat "/" (rev comps) in
  if String.eqb path "" then "." else path.

End OsPath.

(** ** The naming policy *)

Module Naming.
Import PyStr.

(** [c.isalnum() or c in (' ', '-', '_')] *)
Definition keep (c : ascii) : bool :=
  isalnum c || Ascii.eqb c " " || Ascii.eqb c "-" || Ascii.eqb c "_".

Definition safe_char (c : ascii) : ascii := if keep c then c else "_"%char.

Global Arguments keep : simpl never.
Global Arguments safe_char : simpl never.

Definition transliterate (text : string) : string := join_map safe_char text.

(** The safe name, with the ['unnamed'] fallback. *)
Definition safe_name (text : string) : string :=
  match transliterate text with
  | EmptyString => "unnamed"
  | s => s
  end.

(** [f"{base_name}_{counter}.png"] *)
Definition numbered (base_name : string) (counter : nat) : string :=
  base_name +:+ "_" +:+ pretty counter +:+ ".png".

(** The collision loop.  [taken] is the test of the [while]:
    [os.path.exists] on the joined path, or membership in the archive's
    name list.  [fuel] bounds the number of iterations. *)
Fixpoint dedup_loop (taken : string -> bool) (base_name : string)
    (fuel counter : nat) (final_filename : string) : option string :=
  if taken final_filename then
    match fuel with
    | O => None
    | S fuel' =>
        dedup_loop taken base_name fuel' (S counter) (numbered base_name counter)
    end
  else Some final_filename.

Definition resolve (taken : string -> bool) (fuel : nat) (safe : string)
    : option string :=
  dedup_loop taken safe fuel 1 (safe +:+ ".png").

(** The character class of the pattern [[A-Za-z0-9 _-]]. *)
Definition regex_class (c : ascii) : bool :=
  between 48 57 c || between 65 90 c || between 97 122 c
  || Ascii.eqb c " " || Ascii.eqb c "_" || Ascii.eqb c "-".

Global Arguments regex_class : simpl never.

(** [[A-Za-z0-9 _-]*\.png$] *)
Fixpoint match_tail (s : string) : bool :=
  match s with
  | String c s' => String.eqb s ".png" || (regex_class c && match_tail s')
  | EmptyString => false
  end.

(** [^[A-Za-z0-9 _-]+\.png$] *)
Definition matches_png_pattern (s : string) : bool :=
  match s with
  | String c s' => regex_class c && match_tail s'
  | EmptyString => false
  end.

Definition is_ascii (c : ascii) : bool := (code c <? 128)%N.

Global Arguments is_ascii : simpl never.

End Naming.

(** ** The OCR result and the choice of the main line *)

Module Ocr.

Record point := Point { px : Z; py : Z }.

(** One EasyOCR detection [x]: [x[0]] is the quadrilateral (top-left,
    top-right, bottom-right, bottom-left), [x[1]] the recognised text.
    The confidence [x[2]] is never read. *)
Record detection := Detection {
  top_left : point;
  top_right : point;
  bottom_right : point;
  bottom_left : point;
  text : string
}.

(** [abs(x[0][0][1] - x[0][3][1])] *)
Definition span (x : detection) : Z :=
  Z.abs (py (top_left x) - py (bottom_left x)).

(** [max(best :: rest, key=key)]: a later item replaces the current
    maximum only when its key is strictly greater. *)
Fixpoint max_from {A : Type} (key : A -> Z) (best : A) (rest : list A) : A :=
  match rest with
  | [] => best
  | x :: rest' => max_from key (if (key best <? key x)%Z then x else best) rest'
  end.

(** What [reader.readtext] does on one call: it raises, or it returns
    the list of detections. *)
Inductive reading :=
| Raised (e : string)
| Results (l : list detection).

End Ocr.

(** ** Program state, outcomes and the handler monad *)

Record saved_image := SavedImage {
  img_filename : string;
  img_ocr_text : string;
  img_path : string;
  img_order : nat
}.

Record db_entry := DbEntry {
  entry_id : string;
  entry_brand_name : string;
  entry_sequence : Z;
  entry_images : list saved_image;
  entry_created_at : string
}.

(** What a file holds: raw bytes, or the JSON document that [save_db]
    wrote.  [json.load] fails on raw bytes, [cv2.imread] yields [None] on
    a JSON document. *)
Inductive content :=
| Bytes (b : string)
| JsonDb (d : list db_entry).

Record world := World {
  fs : gmap string content;
  entropy : nat        (* how many [uuid4()] / [now()] calls were made *)
}.

(** The world after a file is deleted, and after a file is written. *)
Definition unlink (p : string) (w : world) : world :=
  World (delete p (fs w)) (entropy w).

Definition store (p : string) (c : content) (w : world) : world :=
  World (<[p := c]> (fs w)) (entropy w).

(** The world after a call of [uuid4()] or [now()]. *)
Definition tick (w : world) : world := World (fs w) (S (entropy w)).

Inductive outcome (A : Type) :=
| Ok (a : A)
| Raise (e : string)     (* a Python [Exception] with [str(e) = e] *)
| Diverge.               (* the fuel of a loop ran out *)
Arguments Ok {A} a.
Arguments Raise {A} e.
Arguments Diverge {A}.

Definition M (A : Type) : Type := world -> world * outcome A.

Definition ret {A} (a : A) : M A := fun w => (w, Ok a).

Definition bind {A B} (c : M A) (k : A -> M B) : M B :=
  fun w =>
    match c w with
    | (w', Ok a) => k a w'
    | (w', Raise e) => (w', Raise e)
    | (w', Diverge) => (w', Diverge)
    end.

Definition raise {A} (e : string) : M A := fun w => (w, Raise e).

(** [try: c  except Exception as e: h(e)] *)
Definition try_except {A} (c : M A) (h : string -> M A) : M A :=
  fun w =>
    match c w with
    | (w', Raise e) => h e w'
    | r => r
    end.

Notation "'let*' x ':=' c 'in' k" := (bind c (fun x => k))
  (at level 10, x name, c at level 100, k at level 200).
Notation "'let*' ' p ':=' c 'in' k" := (bind c (fun x => match x with p => k end))
  (at level 10, p pattern, c at level 100, k at level 200).

(** [for idx, x in enumerate(l, start=idx): acc = body(idx, x, acc)];
    a [continue] returns the accumulator as it is. *)
Fixpoint for_enumerate {A St} (body : nat -> A -> St -> M St)
    (idx : nat) (l : list A) (acc : St) : M St :=
  match l with
  | [] => ret acc
  | x :: l' => let* acc' := body idx x acc in for_enumerate body (S idx) l' acc'
  end.

(** ** The external collaborators *)

Class Externals := {
  image : Type;
  (** [cv2.imread]: the pixels of a file's bytes, [None] when they are
      not an image *)
  cv2_decode : string -> option image;
  (** [cv2.imwrite(path, img, [IMWRITE_PNG_COMPRESSION, 0])]: the bytes
      written, [None] when it returns [False] *)
  cv2_imwrite_png : string -> image -> option string;
  (** [cv2.imencode('.png', img, ...)] *)
  cv2_imencode_png : image -> option string;
  (** [reader.readtext] on the file found at a path *)
  easyocr_readtext : option content -> Ocr.reading;
  (** [werkzeug.utils.secure_filename] *)
  secure_filename : string -> string;
  (** [os.path.splitext] *)
  splitext : string -> string * string;
  (** [str(uuid.uuid4())] and [datetime.now().isoformat()], by call number *)
  uuid4 : nat -> string;
  now_isoformat : nat -> string
}.

(** ** Module-level configuration of [app.py] *)

Definition UPLOAD_FOLDER : string := "static/uploads".
Definition temp_dir : string := "static/temp".
Definition db_file : string := "brand_visual_db.json".

(** ** Requests and responses *)

(** The JSON object [{id, text, ext}] of the confirm and save routes. *)
Record item := Item { item_id : string; item_text : string; item_ext : string }.

(** The JSON body of [/save_brand_visual]; an absent key is [None]. *)
Record save_request := SaveRequest {
  brandName : option string;
  slides : option (list item);
  sequence : option Z
}.

(** An uploaded file of a multipart form. *)
Record file_storage := FileStorage { filename : string; stream : string }.

Record upload_form := UploadForm {
  form_mode : option string;             (* request.form.get('mode') *)
  form_images : list file_storage;       (* request.files.getlist('images') *)
  form_image : option file_storage       (* request.files.get('image') *)
}.

Record preview := Preview {
  pv_id : string;
  pv_text : string;
  pv_preview : string;
  pv_ext : string;
  pv_filename : option string            (* only [/upload_brand_slides] sets it *)
}.

(** The members written to a [zipfile.ZipFile], in order: name and bytes. *)
Abbreviation archive := (list (string * string)).

Inductive response :=
| JsonError (status : nat) (error : string)       (* jsonify({'error': ..}), status *)
| UploadJson (mode : option string) (results : list preview)
| DownloadLink (download_link : string)
| ZipAttachment (download_name : string) (members : archive)
| DbJson (db : list db_entry)
| Template (name : string)
| FileAttachment (path : string) (c : content)
| Text (status : nat) (body : string).


(** ** The application *)

Section App.
Context `{E : Externals}.
Import PyStr.

(** *** File-system and library primitives

    Each primitive looks up the path string it is given; it is the file
    system's answer for the path of a file in normal form. *)

Definition os_path_exists (p : string) : M bool :=
  fun w => (w, Ok (bool_decide (is_Some (fs w !! p)))).

(** [os.remove] raises on a missing file. *)
Definition os_remove (p : string) : M unit :=
  fun w =>
    match fs w !! p with
    | Some _ => (unlink p w, Ok tt)
    | None => (w, Raise "FileNotFoundError")
    end.

Definition write_file (p : string) (c : content) : M unit :=
  fun w => (store p c w, Ok tt).

(** What [cv2.imread] makes of the file found at a path. *)
Definition decoded (c : option content) : option image :=
  match c with
  | Some (Bytes b) => cv2_decode b
  | _ => None
  end.

Definition cv2_imread (p : string) : M (option image) :=
  fun w => (w, Ok (decoded (fs w !! p))).

Definition cv2_imwrite (p : string) (img : image) : M bool :=
  match cv2_imwrite_png p img with
  | Some b => let* _ := write_file p (Bytes b) in ret true
  | None => ret false
  end.

Definition uuid_uuid4 : M string :=
  fun w => (tick w, Ok (uuid4 (entropy w))).

Definition datetime_now : M string :=
  fun w => (tick w, Ok (now_isoformat (entropy w))).

Definition reader_readtext (image_path : string) : M (list Ocr.detection) :=
  fun w =>
    match easyocr_readtext (fs w !! image_path) with
    | Ocr.Results results => (w, Ok results)
    | Ocr.Raised e => (w, Raise e)
    end.

(** *** [load_db], [save_db] *)

Definition load_db : M (list db_entry) :=
  fun w =>
    match fs w !! db_file with
    | Some (JsonDb d) => (w, Ok d)
    | Some (Bytes _) => (w, Raise "JSONDecodeError")
    | None => (w, Ok [])
    end.

Definition save_db (data : list db_entry) : M unit :=
  write_file db_file (JsonDb data).

(** *** [extract_main_text] *)

Definition extract_main_text (image_path : string) : M string :=
  try_except
    (let* results := reader_readtext image_path in
     match results with
     | [] => ret "No text detected"
     | x :: rest =>
         let largest := Ocr.max_from Ocr.span x rest in
         ret (strip (Ocr.text largest))
     end)
    (fun _ => ret "OCR failed").

(** *** The two collision loops *)

Definition exists_in_uploads (files : gmap string content) (name : string) : bool :=
  bool_decide (is_Some (files !! OsPath.join UPLOAD_FOLDER name)).

(** [final_filename = f"{safe_name}.png"] followed by
    [while os.path.exists(final_path): ...] *)
Definition unique_upload_name (safe : string) : M string :=
  fun w =>
    match Naming.resolve (exists_in_uploads (fs w)) (S (size (fs w))) safe with
    | Some final_filename => (w, Ok final_filename)
    | None => (w, Diverge)
    end.

Definition in_namelist (namelist : list string) (name : string) : bool :=
  bool_decide (name ∈ namelist).

(** [zip_filename = f"{safe_name}.png"] followed by
    [while zip_filename in zip_file.namelist(): ...] *)
Definition unique_zip_name (zip : archive) (safe : string) : M string :=
  fun w =>
    match Naming.resolve (in_namelist zip.*1) (S (length zip)) safe with
    | Some zip_filename => (w, Ok zip_filename)
    | None => (w, Diverge)
    end.

Definition temp_path_of (it : item) : string :=
  OsPath.join temp_dir (item_id it +:+ item_ext it).

(** [except Exception as e: return jsonify({'error': f'Internal Server
    Error: {str(e)}'}), 500] *)
Definition internal_server_error (e : string) : M response :=
  ret (JsonError 500 ("Internal Server Error: " +:+ e)).

(** *** [/upload] and [/upload_brand_slides] *)

(** The body of [for file in files] in both upload routes;
    [with_filename] tells whether the descriptor records the name. *)
Definition stage_file (with_filename : bool) (_ : nat) (file : file_storage)
    (results : list preview) : M (list preview) :=
  let filename := secure_filename (filename file) in
  if bool_decide (filename = "") then ret results else
  let* unique_id := uuid_uuid4 in
  let '(name, ext) := splitext filename in
  let temp_path := OsPath.join temp_dir (unique_id +:+ ext) in
  let* _ := write_file temp_path (Bytes (stream file)) in
  let* img := cv2_imread temp_path in
  match img with
  | None => let* _ := os_remove temp_path in ret results
  | Some _ =>
      let* text := extract_main_text temp_path in
      ret (results ++ [Preview unique_id text temp_path ext
                         (if with_filename then Some filename else None)])%list
  end.

(** The [files] of [/upload]: [getlist('images')] in bulk mode, otherwise
    [[file] if file and file.filename != '' else []]. *)
Definition request_files (mode : string) (form : upload_form) : list file_storage :=
  if bool_decide (mode = "bulk") then form_images form
  else match form_image form with
       | Some file => if bool_decide (filename file = "") then [] else [file]
       | None => []
       end.

Definition upload (form : upload_form) : M response :=
  try_except
    (let mode := default "single" (form_mode form) in
     let files := request_files mode form in
     if bool_decide (files = []) then ret (JsonError 400 "No image uploaded") else
     if bool_decide (mode = "single") && negb (length files =? 1)%nat then
       ret (JsonError 400 "Single mode requires exactly one image") else
     let* results := for_enumerate (stage_file false) 0 files [] in
     if bool_decide (results = []) then
       ret (JsonError 400 "No valid images processed")
     else ret (UploadJson (Some mode) results))
    internal_server_error.

Definition upload_brand_slides (files : list file_storage) : M response :=
  try_except
    (if bool_decide (files = []) then ret (JsonError 400 "No images uploaded") else
     let* results := for_enumerate (stage_file true) 0 files [] in
     if bool_decide (results = []) then
       ret (JsonError 400 "No valid images processed")
     else ret (UploadJson None results))
    internal_server_error.

(** *** [/save_brand_visual] *)

(** The body of [for idx, slide in enumerate(slides)]; the accumulator
    is [(saved_images, zip_file)]. *)
Definition save_slide (idx : nat) (slide : item)
    (acc : list saved_image * archive) : M (list saved_image * archive) :=
  let '(saved_images, zip_file) := acc in
  let slide_text := strip (item_text slide) in
  let temp_path := temp_path_of slide in
  let* found := os_path_exists temp_path in
  if negb found then ret acc else
  let* img := cv2_imread temp_path in
  match img with
  | None => let* _ := os_remove temp_path in ret acc
  | Some img =>
      let safe_name := Naming.safe_name slide_text in
      let* final_filename := unique_upload_name safe_name in
      let final_path := OsPath.join UPLOAD_FOLDER final_filename in
      let* success := cv2_imwrite final_path img in
      let acc' :=
        if success then
          ((saved_images ++ [SavedImage final_filename slide_text final_path (idx + 1)])%list,
           match cv2_imencode_png img with
           | Some encoded_img => (zip_file ++ [(final_filename, encoded_img)])%list
           | None => zip_file
           end)
        else acc in
      let* _ := os_remove temp_path in
      ret acc'
  end.

Definition save_brand_visual (data : save_request) : M response :=
  try_except
    (let brand_name := strip (default "" (brandName data)) in
     let slides := default [] (slides data) in
     let sequence := default 1%Z (sequence data) in
     if bool_decide (brand_name = "") || bool_decide (slides = []) then
       ret (JsonError 400 "Brand name and slides are required") else
     let* db := load_db in
     let* entry_id := uuid_uuid4 in
     let* timestamp := datetime_now in
     let* '(saved_images, zip_file) := for_enumerate save_slide 0 slides ([], []) in
     let db_entry := DbEntry entry_id brand_name sequence saved_images timestamp in
     let* _ := save_db (db ++ [db_entry])%list in
     ret (ZipAttachment "brand_visual_slides.zip" zip_file))
    internal_server_error.

(** *** [/get_brand_visuals] *)

Definition get_brand_visuals : M response :=
  try_except (let* db := load_db in ret (DbJson db))
             (fun e => ret (JsonError 500 e)).

(** *** [/confirm_single] *)

Definition confirm_single (data : item) : M response :=
  try_except
    (let text := strip (item_text data) in
     let temp_path := temp_path_of data in
     let* found := os_path_exists temp_path in
     if negb found then ret (JsonError 404 "Temp file not found") else
     let* img := cv2_imread temp_path in
     match img with
     | None =>
         let* _ := os_remove temp_path in
         ret (JsonError 500 "Failed to process image")
     | Some img =>
         let safe_name := Naming.safe_name text in
         let* final_filename := unique_upload_name safe_name in
         let final_path := OsPath.join UPLOAD_FOLDER final_filename in
         let* success := cv2_imwrite final_path img in
         if negb success then
           let* _ := os_remove temp_path in
           ret (JsonError 500 "Failed to save image")
         else
           let* _ := os_remove temp_path in
           ret (DownloadLink ("/download/" +:+ final_filename))
     end)
    internal_server_error.

(** *** [/confirm_bulk] *)

(** The body of [for item in data]; the accumulator is [zip_file]. *)
Definition bulk_item (_ : nat) (it : item) (zip_file : archive) : M archive :=
  let text := strip (item_text it) in
  let temp_path := temp_path_of it in
  let* found := os_path_exists temp_path in
  if negb found then ret zip_file else
  let* img := cv2_imread temp_path in
  match img with
  | None => let* _ := os_remove temp_path in ret zip_file
  | Some img =>
      match cv2_imencode_png img with
      | None => let* _ := os_remove temp_path in ret zip_file
      | Some encoded_img =>
          let safe_name := Naming.safe_name text in
          let* zip_filename := unique_zip_name zip_file safe_name in
          let* _ := os_remove temp_path in
          ret (zip_file ++ [(zip_filename, encoded_img)])%list
      end
  end.

Definition confirm_bulk (data : list item) : M response :=
  try_except
    (let* zip_file := for_enumerate bulk_item 0 data [] in
     ret (ZipAttachment "extracted_images.zip" zip_file))
    internal_server_error.

(** *** [/download/<filename>], [/] and [/brand-visual] *)

Definition download_file (filename : string) : M response :=
  fun w =>
    let path := OsPath.join UPLOAD_FOLDER filename in
    match fs w !! path with
    | None => (w, Ok (Text 404 "File not found"))
    | Some c => (w, Ok (FileAttachment path c))
    end.

Definition index : M response := ret (Template "index.html").
Definition brand_visual : M response := ret (Template "brand_visual.html").

(** *** The exposed operations *)

Inductive request :=
| GetIndex
| GetBrandVisualPage
| PostUpload (form : upload_form)
| PostUploadBrandSlides (files : list file_storage)
| PostSaveBrandVisual (data : save_request)
| GetBrandVisuals
| PostConfirmSingle (data : item)
| PostConfirmBulk (data : list item)
| GetDownload (filename : string).

Definition serve (r : request) : M response :=
  match r with
  | GetIndex => index
  | GetBrandVisualPage => brand_visual
  | PostUpload form => upload form
  | PostUploadBrandSlides files => upload_brand_slides files
  | PostSaveBrandVisual data => save_brand_visual data
  | GetBrandVisuals => get_brand_visuals
  | PostConfirmSingle data => confirm_single data
  | PostConfirmBulk data => confirm_bulk data
  | GetDownload filename => download_file filename
  end.

End App.


(** ** A concrete set of collaborators

    Used to run the handlers on explicit inputs: a file is an image when
    its bytes start with [IMG]; two particular images cannot be written or
    encoded; the OCR engine reads the bytes as one line of text; file names
    are taken as they are and split at their last dot. *)

(** The part of a file name from its last dot on. *)
Fixpoint extension (f : string) : string :=
  match f with
  | String c f' =>
      match extension f' with
      | EmptyString => if Ascii.eqb c "." then f else EmptyString
      | ext => ext
      end
  | EmptyString => EmptyString
  end.

Definition sample_externals : Externals := {|
  image := string;
  cv2_decode b := if PyStr.startswith "IMG" b then Some b else None;
  cv2_imwrite_png _ img :=
    if String.eqb img "IMG:unwritable" then None else Some ("PNG" +:+ img);
  cv2_imencode_png img :=
    if String.eqb img "IMG:unencodable" then None else Some ("PNG" +:+ img);
  easyocr_readtext c :=
    match c with
    | Some (Bytes b) =>
        Ocr.Results [Ocr.Detection (Ocr.Point 0 0) (Ocr.Point 9 0)
                       (Ocr.Point 9 5) (Ocr.Point 0 5) b]
    | _ => Ocr.Raised "cannot open image"
    end;
  secure_filename f := f;
  splitext f :=
    let ext := extension f in
    if String.eqb ext f then (f, "")
    else (String.substring 0 (String.length f - String.length ext) f, ext);
  uuid4 n := "uuid" +:+ pretty n;
  now_isoformat n := "t" +:+ pretty n
|}.

(** A staging area with two images, a file that is not an image and an
    image that cannot be written, and one file in permanent storage. *)
Definition sample_world : world :=
  World (list_to_map
           [("static/temp/b.png", Bytes "IMG-B");
            ("static/temp/a.png", Bytes "IMG-A");
            ("static/temp/bad.png", Bytes "not an image");
            ("static/temp/w.png", Bytes "IMG:unwritable");
            ("static/uploads/A.png", Bytes "PNGIMG-old")]) 0.

(** The request of the scenario: brand ["Acme"], slides B then A. *)
Definition sample_save_request : save_request :=
  SaveRequest (Some "Acme")
    (Some [Item "b" " B " ".png"; Item "a" "A" ".png"]) (Some 7%Z).

(** The same collaborators with an OCR engine that finds three lines in
    every image: a low one, then two of the same, greatest height. *)
Definition line_of_height (bottom : Z) (text : string) : Ocr.detection :=
  Ocr.Detection (Ocr.Point 0 0) (Ocr.Point 9 0) (Ocr.Point 9 bottom)
    (Ocr.Point 0 bottom) text.

Definition three_line_externals : Externals := {|
  image := string;
  cv2_decode := @cv2_decode sample_externals;
  cv2_imwrite_png := @cv2_imwrite_png sample_externals;
  cv2_imencode_png := @cv2_imencode_png sample_externals;
  easyocr_readtext c :=
    match c with
    | Some (Bytes _) =>
        Ocr.Results [line_of_height 4 "small"; line_of_height 7 " first ";
                     line_of_height (-7) "second"]
    | _ => Ocr.Raised "cannot open image"
    end;
  secure_filename := @secure_filename sample_externals;
  splitext := @splitext sample_externals;
  uuid4 := @uuid4 sample_externals;
  now_isoformat := @now_isoformat sample_externals
|}.

(** ** Vocabulary of the statements *)

(** The fallback pattern [unnamed(_N)?\.png] of the specification. *)
Definition matches_unnamed_pattern (s : string) : bool :=
  String.eqb s "unnamed.png"
  || (PyStr.startswith "unnamed_" s
      && match String.substring 8 (String.length s - 12) s with
         | EmptyString => false
         | digits => PyStr.all_chars (PyStr.between 48 57) digits
         end
      && String.eqb (String.substring (String.length s - 4) 4 s) ".png").

(** The entries of the Catalog Store as [load_db] reads them; [None] when
    the file is not a JSON document. *)
Definition catalog (w : world) : option (list db_entry) :=
  match fs w !! db_file with
  | Some (JsonDb d) => Some d
  | Some (Bytes _) => None
  | None => Some []
  end.

(** [name] is the first free name among [safe.png], [safe_1.png],
    [safe_2.png], ... in a namespace whose membership test is [taken]. *)
Definition first_free_name (taken : string -> bool) (safe name : string) : Prop :=
  taken name = false
  ∧ ((taken (safe +:+ ".png") = false ∧ name = safe +:+ ".png")
     ∨ (taken (safe +:+ ".png") = true
        ∧ ∃ counter : nat, (1 ≤ counter)%nat ∧ name = Naming.numbered safe counter
            ∧ ∀ j : nat, (1 ≤ j < counter)%nat →
                taken (Naming.numbered safe j) = true)).

(** [name] is the file name the policy derives from the text a client
    sent: the safe name of the stripped text, a counter suffix when the
    plain name was taken, and the extension. *)
Definition named_after (text name : string) : Prop :=
  ∃ stem, name = stem +:+ ".png"
    ∧ (stem = Naming.safe_name (PyStr.strip text)
       ∨ ∃ k : nat, (1 ≤ k)%nat
           ∧ stem = Naming.safe_name (PyStr.strip text) +:+ "_" +:+ pretty k).

(** [name] is a non-empty stem of kept characters followed by [.png]. *)
Definition well_formed_name (name : string) : Prop :=
  ∃ stem, name = stem +:+ ".png" ∧ stem ≠ ""
    ∧ PyStr.all_chars Naming.keep stem = true.

(** Neither end of [stem] is a whitespace character. *)
Definition no_surrounding_space (stem : string) : Prop :=
  (∀ c, PyStr.first_char stem = Some c → PyStr.isspace c = false)
  ∧ (∀ c, PyStr.last_char stem = Some c → PyStr.isspace c = false).

(** [name] is derived from the stripped [text], so no whitespace that
    surrounded the text shows at the ends of its stem. *)
Definition stripped_name (text name : string) : Prop :=
  named_after text name
  ∧ ∃ stem, name = stem +:+ ".png" ∧ no_surrounding_space stem.

(** A path built by [os.path.join(temp_dir, ...)]: one that starts with
    [static/temp/], or an absolute path (an absolute second part replaces
    [temp_dir]). *)
Definition is_temp_path (p : string) : Prop :=
  ∃ name, p = OsPath.join temp_dir name.

(** The record [r] of a catalog entry describes one of the slides of the
    request: its [order] is the slide's 1-based position, its text is the
    slide's stripped text, its file name is derived from that text. *)
Definition records_slide (slides : list item) (r : saved_image) : Prop :=
  (1 ≤ img_order r)%nat
  ∧ ∃ slide, slides !! (img_order r - 1)%nat = Some slide
      ∧ img_ocr_text r = PyStr.strip (item_text slide)
      ∧ named_after (item_text slide) (img_filename r)
      ∧ img_path r = OsPath.join UPLOAD_FOLDER (img_filename r).

(** The [order] fields grow strictly along the list. *)
Definition increasing_order (saved : list saved_image) : Prop :=
  ∀ (j k : nat) r1 r2, saved !! j = Some r1 → saved !! k = Some r2 →
    (j < k)%nat → (img_order r1 < img_order r2)%nat.

(** The call numbers [ns] grow strictly along the list. *)
Definition increasing_calls (ns : list nat) : Prop :=
  ∀ (j k n1 n2 : nat), ns !! j = Some n1 → ns !! k = Some n2 →
    (j < k)%nat → (n1 < n2)%nat.

(** A path of the permanent storage directory. *)
Definition in_upload_folder (p : string) : Prop :=
  PyStr.startswith (UPLOAD_FOLDER +:+ "/") p = true.

(** A character that a plain file name may hold: neither the path
    separator nor NUL. *)
Definition name_char (c : ascii) : bool :=
  negb (Ascii.eqb c "/") && negb (Ascii.eqb c "000").

(** A plain file name: not empty, neither [.] nor [..], without a path
    separator or NUL.  The world maps path strings to files, so it stands for the
    file system only where one string names one file: [os.path.join]
    turns a plain name into the path of a file of the directory itself,
    whereas a name with [..] segments, an absolute name or the empty name
    leads elsewhere (to another directory, or to the directory). *)
Definition plain_name (s : string) : bool :=
  negb (String.eqb s "") && negb (String.eqb s ".")
  && negb (String.eqb s "..") && PyStr.all_chars name_char s.

(** The item names a staged file the way the upload routes hand it out:
    [id] followed by [ext] is a plain file name. *)
Definition plain_item (it : item) : bool :=
  plain_name (item_id it +:+ item_ext it).

(** Every item that the request names is plain. *)
Definition plain_request (r : request) : bool :=
  match r with
  | PostSaveBrandVisual data => forallb plain_item (default [] (slides data))
  | PostConfirmSingle data => plain_item data
  | PostConfirmBulk data => forallb plain_item data
  | GetDownload filename => plain_name filename
  | _ => true
  end.

(** * Properties *)

(** ** Strings *)

Module StrFacts.
Import PyStr.

Lemma sapp_cons c s t : String c s +:+ t = String c (s +:+ t).
Proof. reflexivity. Qed.

Lemma sapp_nil_l s : "" +:+ s = s.
Proof. reflexivity. Qed.

Lemma sapp_nil_r s : s +:+ "" = s.
Proof. induction s as [|c s IH]; [done|]. by rewrite sapp_cons, IH. Qed.

Lemma sapp_assoc s t u : (s +:+ t) +:+ u = s +:+ t +:+ u.
Proof. induction s as [|c s IH]; [done|]. by rewrite !sapp_cons, IH. Qed.

Lemma sapp_length s t :
  String.length (s +:+ t) = String.length s + String.length t.
Proof. induction s as [|c s IH]; [done|]. rewrite sapp_cons. simpl. by rewrite IH. Qed.

Lemma sapp_inv_tail s s' t : s +:+ t = s' +:+ t → s = s'.
Proof.
  revert s'. induction s as [|c s IH]; intros [|c' s'] Heq.
  - done.
  - apply (f_equal String.length) in Heq.
    rewrite sapp_nil_l, sapp_cons in Heq. simpl in Heq. rewrite sapp_length in Heq. lia.
  - apply (f_equal String.length) in Heq.
    rewrite sapp_nil_l, sapp_cons in Heq. simpl in Heq. rewrite sapp_length in Heq. lia.
  - rewrite !sapp_cons in Heq. injection Heq as -> Heq. f_equal. by apply IH.
Qed.

Lemma all_chars_app p s t :
  all_chars p (s +:+ t) = all_chars p s && all_chars p t.
Proof.
  induction s as [|c s IH]; [done|].
  rewrite sapp_cons. simpl. rewrite IH. by rewrite andb_assoc.
Qed.

Lemma all_chars_impl (p q : ascii → bool) s :
  (∀ c, p c = true → q c = true) → all_chars p s = true → all_chars q s = true.
Proof.
  intros Hpq. induction s as [|c s IH]; [done|]. simpl.
  rewrite !andb_true_iff. intros [??]. auto.
Qed.

Lemma first_char_app s t :
  first_char (s +:+ t) = match first_char s with Some c => Some c | None => first_char t end.
Proof. by destruct s. Qed.

Lemma last_char_app_cons s c t :
  last_char (s +:+ String c t) = last_char (String c t).
Proof.
  induction s as [|d s IH]; [done|].
  rewrite sapp_cons. simpl last_char at 1. rewrite IH.
  destruct (s +:+ String c t) eqn:Hs; [|done].
  destruct s; done.
Qed.

Lemma startswith_slash s :
  startswith "/" s = match first_char s with
                     | Some c => Ascii.eqb "/" c
                     | None => false
                     end.
Proof. destruct s as [|c s]; [done|]. simpl. apply andb_true_r. Qed.

Lemma startswith_app p s : startswith p (p +:+ s) = true.
Proof.
  induction p as [|c p IH]; [done|]. rewrite sapp_cons. simpl.
  by rewrite Ascii.eqb_refl, IH.
Qed.

Lemma startswith_inv p s : startswith p s = true → ∃ t, s = p +:+ t.
Proof.
  revert s. induction p as [|c p IH]; intros s Hs.
  - by exists s.
  - destruct s as [|d s]; [done|]. simpl in Hs.
    apply andb_true_iff in Hs as [Hc Hs]. apply Ascii.eqb_eq in Hc as ->.
    destruct (IH _ Hs) as [t ->]. by exists t.
Qed.

(** The decimal digits of a counter. *)
Lemma pretty_N_go_digits x s :
  all_chars (between 48 57) s = true →
  all_chars (between 48 57) (pretty_N_go x s) = true.
Proof.
  revert s. induction (N.lt_wf_0 x) as [x _ IH]; intros s Hs.
  destruct (decide (x = 0)%N) as [->|Hx]; [by rewrite pretty_N_go_0|].
  rewrite pretty_N_go_step by lia. apply IH.
  - apply N.div_lt; lia.
  - simpl. rewrite Hs, andb_true_r.
    unfold pretty_N_char. by repeat case_match.
Qed.

Lemma pretty_nat_digits (n : nat) : all_chars (between 48 57) (pretty n) = true.
Proof.
  unfold pretty, pretty_nat, pretty, pretty_N.
  case_decide; [done|]. by apply pretty_N_go_digits.
Qed.

Lemma pretty_nat_nonempty (n : nat) : pretty n ≠ "".
Proof.
  intros Heq.
  assert (Hgo : ∀ x s, s ≠ "" → pretty_N_go x s ≠ "").
  { intros x. induction (N.lt_wf_0 x) as [x _ IH]; intros s Hs.
    destruct (decide (x = 0)%N) as [->|Hx]; [by rewrite pretty_N_go_0|].
    rewrite pretty_N_go_step by lia. apply IH; [apply N.div_lt; lia|done]. }
  unfold pretty, pretty_nat, pretty, pretty_N in Heq.
  case_decide; [done|].
  rewrite pretty_N_go_step in Heq by lia. by apply Hgo in Heq.
Qed.

End StrFacts.

(** ** The naming policy *)

Module NamingFacts.
Import PyStr Naming StrFacts.
Local Open Scope nat_scope.

Lemma keep_spec c :
  keep c = true ↔ isalnum c = true ∨ c = " "%char ∨ c = "-"%char ∨ c = "_"%char.
Proof.
  unfold keep. rewrite !orb_true_iff, !Ascii.eqb_eq. tauto.
Qed.

Lemma keep_safe_char c : keep (safe_char c) = true.
Proof. unfold safe_char. by destruct (keep c) eqn:Hk. Qed.

Lemma transliterate_keep text : all_chars keep (transliterate text) = true.
Proof.
  induction text as [|c text IH]; [done|].
  cbn [all_chars join_map transliterate].
  rewrite keep_safe_char. exact IH.
Qed.

Lemma transliterate_length text :
  String.length (transliterate text) = String.length text.
Proof.
  induction text as [|c text IH]; [done|].
  cbn [String.length join_map transliterate]. f_equal. exact IH.
Qed.

Lemma transliterate_get text i c :
  String.get i text = Some c →
  String.get i (transliterate text) = Some (if keep c then c else "_"%char).
Proof.
  revert i. induction text as [|d text IH]; intros [|i] Hget;
    cbn [String.get join_map transliterate] in *; try discriminate.
  - by injection Hget as ->.
  - by apply IH.
Qed.

Lemma safe_name_cases text :
  (text = "" ∧ safe_name text = "unnamed")
  ∨ (text ≠ "" ∧ safe_name text = transliterate text).
Proof. destruct text; [by left|by right]. Qed.

Lemma safe_name_keep text : all_chars keep (safe_name text) = true.
Proof.
  destruct (safe_name_cases text) as [[_ ->]|[_ ->]]; [done|].
  apply transliterate_keep.
Qed.

Lemma safe_name_nonempty text : safe_name text ≠ "".
Proof. by destruct text. Qed.

Lemma numbered_stem base k :
  numbered base k = (base +:+ "_" +:+ pretty k) +:+ ".png".
Proof. unfold numbered. by rewrite !sapp_assoc. Qed.

Lemma numbered_inj base i j : numbered base i = numbered base j → i = j.
Proof.
  unfold numbered. intros Heq.
  apply (inj (String.app base)), (inj (String.app "_")) in Heq.
  apply sapp_inv_tail in Heq. by apply (inj pretty).
Qed.

(** What the collision loop returns: the candidate it was entered with
    when that is free, otherwise the numbered name of the least counter
    from [c] on whose name is free. *)
Lemma dedup_loop_Some taken base fuel c cur name :
  dedup_loop taken base fuel c cur = Some name →
  taken name = false
  ∧ ((taken cur = false ∧ name = cur)
     ∨ (taken cur = true ∧ ∃ k, c ≤ k ∧ name = numbered base k
          ∧ ∀ j, c ≤ j < k → taken (numbered base j) = true)).
Proof.
  revert c cur. induction fuel as [|fuel IH]; intros c cur; simpl;
    destruct (taken cur) eqn:Hcur; try done.
  - intros [= <-]. auto.
  - intros Hloop. apply IH in Hloop as [Hfree Hcase]. split; [done|].
    right. split; [done|].
    destruct Hcase as [[Hc ->]|[Hc (k & Hk & -> & Hbelow)]].
    + exists c. split; [lia|]. split; [done|]. intros j ?; lia.
    + exists k. split; [lia|]. split; [done|]. intros j Hj.
      destruct (decide (j = c)) as [->|?]; [done|]. apply Hbelow. lia.
  - intros [= <-]. auto.
Qed.

Lemma dedup_loop_None taken base fuel c cur :
  dedup_loop taken base fuel c cur = None →
  ∀ k, c ≤ k < c + fuel → taken (numbered base k) = true.
Proof.
  revert c cur. induction fuel as [|fuel IH]; intros c cur; simpl;
    destruct (taken cur) eqn:Hcur; try done.
  - intros _ k ?. lia.
  - intros Hloop k Hk. destruct (decide (k = c)) as [->|Hne].
    + destruct fuel; simpl in Hloop;
        by destruct (taken (numbered base c)).
    + eapply IH; [done|lia].
Qed.

(** The loop ends: among [fuel] numbered names, a set of fewer than
    [fuel] taken keys leaves one free. *)
Lemma dedup_loop_total (taken : string → bool) (key : string → string)
    (D : gset string) base fuel c cur :
  (∀ n, taken n = true → key n ∈ D) →
  (∀ i j, key (numbered base i) = key (numbered base j) → i = j) →
  size D < fuel →
  is_Some (dedup_loop taken base fuel c cur).
Proof.
  intros Htaken Hinj Hsize.
  destruct (dedup_loop taken base fuel c cur) eqn:Hloop; [by eexists|].
  exfalso.
  pose proof (dedup_loop_None _ _ _ _ _ Hloop) as Hall.
  set (f := λ i, key (numbered base i)).
  assert (Hnd : NoDup (f <$> seq c fuel)).
  { apply NoDup_fmap_2; [intros i j; apply Hinj|apply NoDup_seq]. }
  assert (Hsub : list_to_set (C := gset string) (f <$> seq c fuel) ⊆ D).
  { intros p. rewrite elem_of_list_to_set, list_elem_of_fmap.
    intros (k & -> & Hk). apply elem_of_seq in Hk. apply Htaken, Hall. lia. }
  apply subseteq_size in Hsub.
  rewrite size_list_to_set in Hsub by done.
  rewrite length_fmap, length_seq in Hsub. lia.
Qed.

(** The pattern [^[A-Za-z0-9 _-]+\.png$]. *)
Lemma match_tail_app stem :
  all_chars regex_class stem = true → match_tail (stem +:+ ".png") = true.
Proof.
  induction stem as [|c stem IH]; [done|].
  rewrite sapp_cons. cbn [all_chars match_tail].
  rewrite andb_true_iff. intros [-> Hstem].
  rewrite IH by done. apply orb_true_r.
Qed.

Lemma matches_png_pattern_app stem :
  stem ≠ "" → all_chars regex_class stem = true →
  matches_png_pattern (stem +:+ ".png") = true.
Proof.
  destruct stem as [|c stem]; [done|]. intros _.
  rewrite sapp_cons. cbn [all_chars matches_png_pattern].
  rewrite andb_true_iff. intros [-> Hstem].
  by apply match_tail_app.
Qed.

Lemma ascii_keep_regex_class c :
  is_ascii c = true → keep c = true → regex_class c = true.
Proof. destruct c as [[] [] [] [] [] [] [] []]; by vm_compute. Qed.

Lemma digit_regex_class c : between 48 57 c = true → regex_class c = true.
Proof. unfold regex_class. by intros ->. Qed.

Lemma transliterate_regex_class text :
  all_chars is_ascii text = true →
  all_chars regex_class (transliterate text) = true.
Proof.
  induction text as [|c text IH]; [done|].
  cbn [all_chars join_map transliterate].
  rewrite !andb_true_iff. intros [Hc Htext]. split; [|auto].
  unfold safe_char. destruct (keep c) eqn:Hk; [|done].
  by apply ascii_keep_regex_class.
Qed.

Lemma safe_name_regex_class text :
  all_chars is_ascii text = true →
  all_chars regex_class (safe_name text) = true.
Proof.
  destruct (safe_name_cases text) as [[_ ->]|[_ ->]]; [done|].
  apply transliterate_regex_class.
Qed.

End NamingFacts.

(** ** Paths *)

Module PathFacts.
Import PyStr Naming StrFacts NamingFacts.

Lemma join_upload_folder name :
  OsPath.join UPLOAD_FOLDER name
  = if startswith "/" name then name else "static/uploads/" +:+ name.
Proof. unfold OsPath.join. by destruct (startswith "/" name). Qed.

Lemma join_temp_dir name :
  OsPath.join temp_dir name
  = if startswith "/" name then name else "static/temp/" +:+ name.
Proof. unfold OsPath.join. by destruct (startswith "/" name). Qed.

(** A path below [temp_dir] is absolute or starts with [static/temp/]. *)
Lemma temp_path_first name :
  first_char (OsPath.join temp_dir name) = Some "/"%char
  ∨ startswith "static/temp/" (OsPath.join temp_dir name) = true.
Proof.
  rewrite join_temp_dir. destruct (startswith "/" name) eqn:Hs.
  - left. rewrite startswith_slash in Hs.
    destruct (first_char name) as [c|]; [|done].
    by apply Ascii.eqb_eq in Hs as <-.
  - right. apply startswith_app.
Qed.

Lemma temp_path_not_db name : OsPath.join temp_dir name ≠ db_file.
Proof.
  intros Heq. destruct (temp_path_first name) as [H|H]; by rewrite Heq in H.
Qed.

Lemma temp_path_not_in_upload_folder name :
  ¬ in_upload_folder (OsPath.join temp_dir name).
Proof.
  unfold in_upload_folder. destruct (temp_path_first name) as [H|H].
  - destruct (OsPath.join temp_dir name) as [|c p]; [done|].
    cbn [first_char] in H. by injection H as ->.
  - apply startswith_inv in H as [t ->]. by vm_compute.
Qed.

(** A file name chosen by the naming policy starts with a kept character,
    so it is joined below [UPLOAD_FOLDER]. *)
Lemma kept_first_not_slash s :
  s ≠ "" → all_chars keep s = true → ∀ t, startswith "/" (s +:+ t) = false.
Proof.
  destruct s as [|c s]; [done|]. intros _ Hk t.
  rewrite sapp_cons. cbn [all_chars startswith] in *.
  apply andb_true_iff in Hk as [Hc _].
  rewrite andb_true_r. apply not_true_is_false. intros Heq.
  apply Ascii.eqb_eq in Heq as <-. done.
Qed.

Lemma upload_path_of_kept s t :
  s ≠ "" → all_chars keep s = true →
  OsPath.join UPLOAD_FOLDER (s +:+ t) = "static/uploads/" +:+ s +:+ t.
Proof.
  intros. by rewrite join_upload_folder, kept_first_not_slash.
Qed.

Lemma upload_path_in_upload_folder s t :
  s ≠ "" → all_chars keep s = true →
  in_upload_folder (OsPath.join UPLOAD_FOLDER (s +:+ t)).
Proof.
  intros. rewrite upload_path_of_kept by done. unfold in_upload_folder.
  apply (startswith_app "static/uploads/").
Qed.

Lemma in_upload_folder_not_db p : in_upload_folder p → p ≠ db_file.
Proof. by intros Hp ->. Qed.

Lemma in_upload_folder_not_temp p name :
  in_upload_folder p → p ≠ OsPath.join temp_dir name.
Proof. intros Hp ->. by apply temp_path_not_in_upload_folder in Hp. Qed.

End PathFacts.

(** ** Plain file names

    What [os.path.join] and [os.path.normpath] make of a plain name. *)

Module PlainFacts.
Import PyStr Naming StrFacts NamingFacts PathFacts.

Lemma plain_name_spec s :
  plain_name s = true
  ↔ s ≠ "" ∧ s ≠ "." ∧ s ≠ ".." ∧ all_chars name_char s = true.
Proof.
  unfold plain_name. rewrite !andb_true_iff, !negb_true_iff, !String.eqb_neq.
  tauto.
Qed.

Lemma plain_name_relative s : plain_name s = true → startswith "/" s = false.
Proof.
  intros (_ & _ & _ & Hc)%plain_name_spec. rewrite startswith_slash.
  destruct s as [|c s]; [done|]. cbn [first_char all_chars] in *.
  apply andb_true_iff in Hc as [Hc _]. unfold name_char in Hc.
  apply andb_true_iff in Hc as [Hc _]. apply negb_true_iff in Hc.
  by rewrite Ascii.eqb_sym.
Qed.

(** The staged path of a plain item is a file of the staging directory. *)
Lemma plain_temp_path it :
  plain_item it = true →
  temp_path_of it = "static/temp/" +:+ item_id it +:+ item_ext it.
Proof.
  intros Hit. unfold temp_path_of.
  by rewrite join_temp_dir, plain_name_relative.
Qed.

Lemma plain_upload_path name :
  plain_name name = true →
  OsPath.join UPLOAD_FOLDER name = "static/uploads/" +:+ name.
Proof. intros Hn. by rewrite join_upload_folder, plain_name_relative. Qed.

Lemma plain_in_upload_folder name :
  plain_name name = true → in_upload_folder (OsPath.join UPLOAD_FOLDER name).
Proof.
  intros Hn. rewrite plain_upload_path by done.
  apply (startswith_app "static/uploads/").
Qed.

Lemma split_sep_name cur s rest :
  all_chars name_char s = true →
  OsPath.split_sep cur (s +:+ rest) = OsPath.split_sep (cur +:+ s) rest.
Proof.
  revert cur. induction s as [|c s IH]; intros cur Hs.
  - by rewrite sapp_nil_l, sapp_nil_r.
  - cbn [all_chars] in Hs. apply andb_true_iff in Hs as [Hc Hs].
    unfold name_char in Hc. apply andb_true_iff in Hc as [Hc _].
    apply negb_true_iff in Hc.
    rewrite sapp_cons. cbn [OsPath.split_sep]. rewrite Hc, IH by done.
    by rewrite sapp_assoc, sapp_cons, sapp_nil_l.
Qed.

(** Below a directory [a/b] of plain names, the path of a plain name is in
    normal form: it names the file [name] of that directory and no other. *)
Lemma normpath_plain a b name :
  plain_name a = true → plain_name b = true → plain_name name = true →
  OsPath.normpath (a +:+ "/" +:+ b +:+ "/" +:+ name)
  = a +:+ "/" +:+ b +:+ "/" +:+ name.
Proof.
  intros Ha Hb Hn.
  assert (Hrel : startswith "/" (a +:+ "/" +:+ b +:+ "/" +:+ name) = false).
  { apply plain_name_spec in Ha as (Ha & _ & _ & Hc).
    destruct a as [|c a]; [done|]. rewrite sapp_cons, startswith_slash.
    cbn [first_char all_chars] in *. apply andb_true_iff in Hc as [Hc _].
    unfold name_char in Hc. apply andb_true_iff in Hc as [Hc _].
    apply negb_true_iff in Hc. by rewrite Ascii.eqb_sym. }
  assert (Hne : ∀ s t, plain_name s = true → String.eqb (s +:+ t) "" = false).
  { intros s t (Hs & _)%plain_name_spec. destruct s; [done|].
    by rewrite sapp_cons. }
  assert (Hsplit : OsPath.split_sep "" (a +:+ "/" +:+ b +:+ "/" +:+ name)
                   = [a; b; name]).
  { apply plain_name_spec in Ha as (_ & _ & _ & Ha).
    apply plain_name_spec in Hb as (_ & _ & _ & Hb).
    apply plain_name_spec in Hn as (_ & _ & _ & Hn).
    rewrite split_sep_name, sapp_nil_l, sapp_cons by done.
    cbn [OsPath.split_sep]. rewrite Ascii.eqb_refl, sapp_nil_l.
    rewrite split_sep_name, sapp_nil_l, sapp_cons by done.
    cbn [OsPath.split_sep]. rewrite Ascii.eqb_refl, sapp_nil_l.
    rewrite <-(sapp_nil_r name) at 1.
    by rewrite split_sep_name, sapp_nil_l by done. }
  assert (Hstep : ∀ abs comps s, plain_name s = true →
    OsPath.norm_comp abs comps s = s :: comps).
  { intros abs comps s (H1 & H2 & H3 & _)%plain_name_spec.
    unfold OsPath.norm_comp.
    apply String.eqb_neq in H1, H2, H3. by rewrite H1, H2, H3. }
  unfold OsPath.normpath. rewrite Hne, Hrel, Hsplit by done.
  cbn [fold_left]. rewrite !Hstep by done.
  cbn [rev app String.concat]. rewrite sapp_nil_l.
  by rewrite Hne.
Qed.

Lemma normpath_plain_temp_path it :
  plain_item it = true →
  OsPath.normpath (temp_path_of it) = temp_path_of it.
Proof.
  intros Hit. rewrite plain_temp_path by done.
  by apply (normpath_plain "static" "temp").
Qed.

Lemma normpath_plain_upload_path name :
  plain_name name = true →
  OsPath.normpath (OsPath.join UPLOAD_FOLDER name)
  = OsPath.join UPLOAD_FOLDER name.
Proof.
  intros Hn. rewrite plain_upload_path by done.
  by apply (normpath_plain "static" "uploads").
Qed.

End PlainFacts.

(** A name that is not plain leads elsewhere.  The confirm and save
    routes join [temp_dir] with the [id] and [ext] of the request as they
    come: the staged path can then be a path of the catalog file or of a
    stored image, the staging directory itself, or an absolute path.  The
    upload routes join a uuid and the extension of a sanitised file
    name. *)
Example staged_path_of_a_name_that_is_not_plain :
  let to_catalog := Item "../../brand_visual_db" "x" ".json" in
  let to_stored := Item "../uploads/A" "x" ".png" in
  temp_path_of to_catalog = "static/temp/../../brand_visual_db.json"
  ∧ OsPath.normpath (temp_path_of to_catalog) = db_file
  ∧ temp_path_of to_stored = "static/temp/../uploads/A.png"
  ∧ OsPath.normpath (temp_path_of to_stored)
    = OsPath.join UPLOAD_FOLDER "A.png"
  ∧ temp_path_of (Item "" "x" "") = "static/temp/"
  ∧ temp_path_of (Item "/srv/app/static/uploads/A" "x" ".png")
    = "/srv/app/static/uploads/A.png"
  ∧ plain_item to_catalog = false
  ∧ plain_item to_stored = false
  ∧ plain_item (Item "" "x" "") = false
  ∧ plain_item (Item "/srv/app/static/uploads/A" "x" ".png") = false
  ∧ plain_item (Item "3f2b8c1e-uuid" "x" ".png") = true.
Proof. by vm_compute. Qed.

(** ** The two collision loops inside the handlers *)

Section UniqueNames.
Context `{E : Externals}.
Import PyStr Naming StrFacts NamingFacts PathFacts.
Local Open Scope nat_scope.

Lemma resolve_first_free taken fuel safe name :
  resolve taken fuel safe = Some name → first_free_name taken safe name.
Proof. apply dedup_loop_Some. Qed.

Lemma first_free_name_stem taken safe name :
  first_free_name taken safe name →
  ∃ stem, name = stem +:+ ".png"
    ∧ (stem = safe ∨ ∃ k : nat, 1 ≤ k ∧ stem = safe +:+ "_" +:+ pretty k).
Proof.
  intros [_ [[_ ->]|[_ (k & Hk & -> & _)]]].
  - exists safe. auto.
  - exists (safe +:+ "_" +:+ pretty k). rewrite numbered_stem. eauto.
Qed.

Lemma resolve_uploads_total (files : gmap string content) safe :
  safe ≠ "" → all_chars keep safe = true →
  is_Some (resolve (exists_in_uploads files) (S (size files)) safe).
Proof.
  intros Hne Hkeep.
  apply (dedup_loop_total _ (OsPath.join UPLOAD_FOLDER) (dom files)).
  - intros n Hn. apply bool_decide_eq_true in Hn. by apply elem_of_dom.
  - intros i j. unfold numbered. rewrite !upload_path_of_kept by done.
    intros Heq. apply (inj (String.app "static/uploads/")) in Heq.
    by apply (numbered_inj safe).
  - rewrite size_dom. lia.
Qed.

Lemma size_list_to_set_le (l : list string) :
  size (list_to_set (C := gset string) l) ≤ length l.
Proof.
  induction l as [|x l IH]; cbn [list_to_set foldr length].
  - by rewrite size_empty.
  - rewrite size_union_alt, size_singleton.
    assert (size (list_to_set (C := gset string) l ∖ {[x]})
            ≤ size (list_to_set (C := gset string) l)).
    { apply subseteq_size. intros y. rewrite elem_of_difference. tauto. }
    lia.
Qed.

Lemma resolve_zip_total (zip : archive) safe :
  is_Some (resolve (in_namelist zip.*1) (S (length zip)) safe).
Proof.
  apply (dedup_loop_total _ id (list_to_set zip.*1)).
  - intros n Hn. apply bool_decide_eq_true in Hn. by apply elem_of_list_to_set.
  - intros i j. apply numbered_inj.
  - eapply Nat.le_lt_trans; [apply size_list_to_set_le|].
    rewrite length_fmap. lia.
Qed.

Lemma unique_upload_name_run text w :
  ∃ name, unique_upload_name (safe_name text) w = (w, Ok name)
    ∧ first_free_name (exists_in_uploads (fs w)) (safe_name text) name.
Proof.
  unfold unique_upload_name.
  destruct (resolve_uploads_total (fs w) (safe_name text)) as [name Hname];
    [apply safe_name_nonempty|apply safe_name_keep|].
  rewrite Hname. exists name. split; [done|]. by eapply resolve_first_free.
Qed.

Lemma unique_zip_name_run zip text w :
  ∃ name, unique_zip_name zip (safe_name text) w = (w, Ok name)
    ∧ first_free_name (in_namelist zip.*1) (safe_name text) name.
Proof.
  unfold unique_zip_name.
  destruct (resolve_zip_total zip (safe_name text)) as [name Hname].
  rewrite Hname. exists name. split; [done|]. by eapply resolve_first_free.
Qed.

End UniqueNames.

(** ** Running the handlers *)

Section Handlers.
Context `{E : Externals}.
Import PyStr Naming StrFacts NamingFacts PathFacts.
Local Open Scope nat_scope.

Lemma policy_name_in_upload_folder taken text name :
  first_free_name taken (safe_name text) name →
  in_upload_folder (OsPath.join UPLOAD_FOLDER name).
Proof.
  intros [_ [[_ ->]|[_ (k & _ & -> & _)]]];
    apply upload_path_in_upload_folder;
    auto using safe_name_nonempty, safe_name_keep.
Qed.

Lemma lookup_store_ne p q c w : p ≠ q → fs (store p c w) !! q = fs w !! q.
Proof. intros. unfold store. cbn [fs]. by rewrite lookup_insert_ne. Qed.

Lemma lookup_store_eq p c w : fs (store p c w) !! p = Some c.
Proof. unfold store. cbn [fs]. by rewrite lookup_insert_eq. Qed.

Lemma lookup_unlink_ne p q w : p ≠ q → fs (unlink p w) !! q = fs w !! q.
Proof. intros. unfold unlink. cbn [fs]. by rewrite lookup_delete_ne. Qed.

Lemma lookup_unlink_eq p w : fs (unlink p w) !! p = None.
Proof. unfold unlink. cbn [fs]. by rewrite lookup_delete_eq. Qed.

Lemma os_remove_present p w :
  is_Some (fs w !! p) → os_remove p w = (unlink p w, Ok tt).
Proof. intros [c Hc]. unfold os_remove. by rewrite Hc. Qed.

(** [confirm_single], branch by branch. *)
Lemma confirm_single_run data w :
  let tp := temp_path_of data in
  match fs w !! tp with
  | None => confirm_single data w = (w, Ok (JsonError 404 "Temp file not found"))
  | Some c =>
      match decoded (Some c) with
      | None =>
          confirm_single data w
          = (unlink tp w, Ok (JsonError 500 "Failed to process image"))
      | Some img =>
          ∃ name,
            first_free_name (exists_in_uploads (fs w))
              (safe_name (strip (item_text data))) name
            ∧ match cv2_imwrite_png (OsPath.join UPLOAD_FOLDER name) img with
              | None =>
                  confirm_single data w
                  = (unlink tp w, Ok (JsonError 500 "Failed to save image"))
              | Some b =>
                  confirm_single data w
                  = (unlink tp (store (OsPath.join UPLOAD_FOLDER name) (Bytes b) w),
                     Ok (DownloadLink ("/download/" +:+ name)))
              end
      end
  end.
Proof.
  intros tp. subst tp.
  unfold confirm_single, try_except, bind, os_path_exists, cv2_imread.
  cbv beta iota zeta.
  destruct (fs w !! temp_path_of data) as [c|] eqn:Htp.
  - rewrite bool_decide_eq_true_2 by eauto. cbn [negb]. rewrite Htp.
    destruct (decoded (Some c)) as [img|] eqn:Hdec.
    + destruct (unique_upload_name_run (strip (item_text data)) w)
        as (name & -> & Hname).
      exists name. split; [done|].
      unfold cv2_imwrite, bind, write_file, ret.
      destruct (cv2_imwrite_png _ img) as [b|]; cbn [negb].
      * rewrite os_remove_present; [done|].
        rewrite lookup_store_ne, Htp; [by eauto|].
        apply in_upload_folder_not_temp. by eapply policy_name_in_upload_folder.
      * rewrite os_remove_present; [done|]. rewrite Htp. by eauto.
    + rewrite os_remove_present; [done|]. rewrite Htp. by eauto.
  - by rewrite bool_decide_eq_false_2 by (by intros [??]).
Qed.

(** [max] returns an element of the list whose key no other exceeds. *)
Lemma max_from_spec {A} (key : A → Z) best rest :
  Ocr.max_from key best rest ∈ best :: rest
  ∧ ∀ x, x ∈ best :: rest → (key x ≤ key (Ocr.max_from key best rest))%Z.
Proof.
  revert best. induction rest as [|y rest IH]; intros best; cbn [Ocr.max_from].
  - split; [apply list_elem_of_here|]. intros x Hx.
    apply list_elem_of_singleton in Hx as ->. lia.
  - destruct (IH (if (key best <? key y)%Z then y else best)) as [Hin Hmax].
    split.
    + apply elem_of_cons in Hin as [->|Hin].
      * destruct (key best <? key y)%Z;
          [apply list_elem_of_further, list_elem_of_here|apply list_elem_of_here].
      * by do 2 apply list_elem_of_further.
    + intros x Hx.
      assert (Hnew : ∀ z, z ∈ [best; y] →
        (key z ≤ key (if (key best <? key y)%Z then y else best))%Z).
      { intros z Hz. destruct (Z.ltb_spec (key best) (key y));
          repeat (apply elem_of_cons in Hz as [->|Hz]); try lia;
          by apply not_elem_of_nil in Hz. }
      apply elem_of_cons in Hx as [->|Hx].
      * etrans; [apply Hnew, list_elem_of_here|].
        apply Hmax, list_elem_of_here.
      * apply elem_of_cons in Hx as [->|Hx].
        -- etrans; [apply Hnew, list_elem_of_further, list_elem_of_here|].
           apply Hmax, list_elem_of_here.
        -- by apply Hmax, list_elem_of_further.
Qed.

Lemma extract_main_text_run image_path w :
  extract_main_text image_path w
  = (w, Ok match easyocr_readtext (fs w !! image_path) with
           | Ocr.Raised _ => "OCR failed"
           | Ocr.Results [] => "No text detected"
           | Ocr.Results (x :: rest) =>
               strip (Ocr.text (Ocr.max_from Ocr.span x rest))
           end).
Proof.
  unfold extract_main_text, try_except, bind, reader_readtext.
  destruct (easyocr_readtext _) as [e|[|x rest]]; done.
Qed.

(** The [for] loop, by an invariant on the index, the world and the
    accumulator. *)
Lemma for_enumerate_inv {A St} (body : nat → A → St → M St) (l : list A)
    (P : nat → world → St → Prop) :
  (∀ i x acc w, l !! i = Some x → P i w acc →
     ∃ w' acc', body i x acc w = (w', Ok acc') ∧ P (S i) w' acc') →
  ∀ acc w, P 0 w acc →
    ∃ w' acc', for_enumerate body 0 l acc w = (w', Ok acc') ∧ P (length l) w' acc'.
Proof.
  intros Hstep.
  cut (∀ suf pre acc w, l = (pre ++ suf)%list → P (length pre) w acc →
         ∃ w' acc', for_enumerate body (length pre) suf acc w = (w', Ok acc')
                    ∧ P (length l) w' acc').
  { intros Hgen acc w. apply (Hgen l []). done. }
  induction suf as [|x suf IH]; intros pre acc w Hl HP.
  - exists w, acc. split; [done|]. subst l. by rewrite app_nil_r.
  - destruct (Hstep (length pre) x acc w) as (w1 & acc1 & Hbody & HP1); [|done|].
    { subst l. by rewrite list_lookup_middle. }
    destruct (IH (pre ++ [x])%list acc1 w1) as (w2 & acc2 & Hrest & HP2).
    { by rewrite <-app_assoc. }
    { rewrite length_app. cbn [length]. by rewrite Nat.add_1_r. }
    exists w2, acc2. split; [|done].
    cbn [for_enumerate]. unfold bind at 1. rewrite Hbody.
    rewrite length_app in Hrest. cbn [length] in Hrest.
    by rewrite Nat.add_1_r in Hrest.
Qed.

Lemma for_enumerate_cons {A St} (body : nat → A → St → M St) i x l acc w w' acc' :
  body i x acc w = (w', Ok acc') →
  for_enumerate body i (x :: l) acc w = for_enumerate body (S i) l acc' w'.
Proof. intros Hbody. cbn [for_enumerate]. unfold bind. by rewrite Hbody. Qed.

(** One turn of the loop of [confirm_bulk]. *)
Lemma bulk_item_run i it zip w :
  let tp := temp_path_of it in
  match fs w !! tp with
  | None => bulk_item i it zip w = (w, Ok zip)
  | Some c =>
      match decoded (Some c) with
      | None => bulk_item i it zip w = (unlink tp w, Ok zip)
      | Some img =>
          match cv2_imencode_png img with
          | None => bulk_item i it zip w = (unlink tp w, Ok zip)
          | Some encoded =>
              ∃ name,
                first_free_name (in_namelist zip.*1)
                  (safe_name (strip (item_text it))) name
                ∧ bulk_item i it zip w
                  = (unlink tp w, Ok (zip ++ [(name, encoded)])%list)
          end
      end
  end.
Proof.
  intros tp. subst tp.
  unfold bulk_item, bind, os_path_exists, cv2_imread. cbv beta iota zeta.
  destruct (fs w !! temp_path_of it) as [c|] eqn:Htp.
  - rewrite bool_decide_eq_true_2 by eauto. cbn [negb]. rewrite Htp.
    destruct (decoded (Some c)) as [img|] eqn:Hdec.
    + destruct (cv2_imencode_png img) as [encoded|].
      * destruct (unique_zip_name_run zip (strip (item_text it)) w)
          as (name & -> & Hname).
        exists name. split; [done|].
        rewrite os_remove_present; [done|]. rewrite Htp. by eauto.
      * rewrite os_remove_present; [done|]. rewrite Htp. by eauto.
    + rewrite os_remove_present; [done|]. rewrite Htp. by eauto.
  - by rewrite bool_decide_eq_false_2 by (by intros [??]).
Qed.

(** One turn of the loop of [save_brand_visual]. *)
Lemma save_slide_run idx slide saved zip w :
  let tp := temp_path_of slide in
  let slide_text := strip (item_text slide) in
  match fs w !! tp with
  | None => save_slide idx slide (saved, zip) w = (w, Ok (saved, zip))
  | Some c =>
      match decoded (Some c) with
      | None => save_slide idx slide (saved, zip) w = (unlink tp w, Ok (saved, zip))
      | Some img =>
          ∃ name,
            first_free_name (exists_in_uploads (fs w)) (safe_name slide_text) name
            ∧ let final_path := OsPath.join UPLOAD_FOLDER name in
              match cv2_imwrite_png final_path img with
              | None =>
                  save_slide idx slide (saved, zip) w
                  = (unlink tp w, Ok (saved, zip))
              | Some b =>
                  save_slide idx slide (saved, zip) w
                  = (unlink tp (store final_path (Bytes b) w),
                     Ok ((saved ++ [SavedImage name slide_text final_path (idx + 1)])%list,
                         match cv2_imencode_png img with
                         | Some encoded => (zip ++ [(name, encoded)])%list
                         | None => zip
                         end))
              end
      end
  end.
Proof.
  intros tp slide_text. subst tp slide_text.
  unfold save_slide, bind, os_path_exists, cv2_imread. cbv beta iota zeta.
  destruct (fs w !! temp_path_of slide) as [c|] eqn:Htp.
  - rewrite bool_decide_eq_true_2 by eauto. cbn [negb]. rewrite Htp.
    destruct (decoded (Some c)) as [img|] eqn:Hdec.
    + destruct (unique_upload_name_run (strip (item_text slide)) w)
        as (name & -> & Hname).
      exists name. split; [done|].
      unfold cv2_imwrite, bind, write_file, ret.
      destruct (cv2_imwrite_png _ img) as [b|].
      * rewrite os_remove_present; [done|].
        rewrite lookup_store_ne, Htp; [by eauto|].
        apply in_upload_folder_not_temp. by eapply policy_name_in_upload_folder.
      * rewrite os_remove_present; [done|]. rewrite Htp. by eauto.
    + rewrite os_remove_present; [done|]. rewrite Htp. by eauto.
  - by rewrite bool_decide_eq_false_2 by (by intros [??]).
Qed.

(** One turn of the loop of the upload routes. *)
Lemma stage_file_run with_filename i file results w :
  let filename := secure_filename (filename file) in
  let unique_id := uuid4 (entropy w) in
  let ext := (splitext filename).2 in
  let tp := OsPath.join temp_dir (unique_id +:+ ext) in
  let w1 := store tp (Bytes (stream file)) (tick w) in
  if bool_decide (filename = "") then
    stage_file with_filename i file results w = (w, Ok results)
  else
    match cv2_decode (stream file) with
    | None => stage_file with_filename i file results w = (unlink tp w1, Ok results)
    | Some _ =>
        ∃ text,
          stage_file with_filename i file results w
          = (w1, Ok (results ++ [Preview unique_id text tp ext
                       (if with_filename then Some filename else None)])%list)
    end.
Proof.
  cbv zeta. unfold stage_file. cbv zeta.
  destruct (bool_decide (secure_filename (filename file) = "")); [done|].
  unfold bind at 1. unfold uuid_uuid4.
  destruct (splitext (secure_filename (filename file))) as [name ext].
  cbn [snd]. unfold bind, write_file, cv2_imread. cbv beta iota.
  rewrite lookup_store_eq. cbn [decoded].
  destruct (cv2_decode (stream file)) as [img|].
  - rewrite extract_main_text_run. eexists. reflexivity.
  - rewrite os_remove_present; [done|]. rewrite lookup_store_eq. by eauto.
Qed.

Lemma unlink_absent p w : fs w !! p = None → unlink p w = w.
Proof. intros Hp. destruct w as [files n]. unfold unlink. cbn [fs entropy] in *. by rewrite delete_id. Qed.

Lemma first_free_named_after taken text name :
  first_free_name taken (safe_name (strip text)) name → named_after text name.
Proof. apply first_free_name_stem. Qed.

(** What one turn of [confirm_bulk] does to the world and the archive. *)
Lemma bulk_item_effect i it zip w :
  ∃ zip', bulk_item i it zip w = (unlink (temp_path_of it) w, Ok zip')
    ∧ (zip' = zip
       ∨ ∃ name encoded, zip' = (zip ++ [(name, encoded)])%list
           ∧ first_free_name (in_namelist zip.*1)
               (safe_name (strip (item_text it))) name).
Proof.
  pose proof (bulk_item_run i it zip w) as Hrun. cbv zeta in Hrun.
  destruct (fs w !! temp_path_of it) as [c|] eqn:Htp.
  - destruct (decoded (Some c)) as [img|]; [|by eauto].
    destruct (cv2_imencode_png img) as [encoded|]; [|by eauto].
    destruct Hrun as (name & Hname & ->). eauto 10.
  - rewrite unlink_absent by done. eauto.
Qed.

(** What one turn of [save_brand_visual] does. *)
Lemma save_slide_effect idx slide saved zip w :
  let tp := temp_path_of slide in
  (save_slide idx slide (saved, zip) w = (unlink tp w, Ok (saved, zip)))
  ∨ ∃ name b,
      first_free_name (exists_in_uploads (fs w))
        (safe_name (strip (item_text slide))) name
      ∧ is_Some (fs w !! tp)
      ∧ save_slide idx slide (saved, zip) w
        = (unlink tp (store (OsPath.join UPLOAD_FOLDER name) (Bytes b) w),
           Ok ((saved ++ [SavedImage name (strip (item_text slide))
                            (OsPath.join UPLOAD_FOLDER name) (idx + 1)])%list,
               (zip ++ match decoded (fs w !! tp) ≫= cv2_imencode_png with
                       | Some encoded => [(name, encoded)]
                       | None => []
                       end)%list)).
Proof.
  intros tp. subst tp.
  pose proof (save_slide_run idx slide saved zip w) as Hrun. cbv zeta in Hrun.
  destruct (fs w !! temp_path_of slide) as [c|] eqn:Htp.
  - destruct (decoded (Some c)) as [img|] eqn:Hdec; [|by eauto].
    destruct Hrun as (name & Hname & Hrun).
    destruct (cv2_imwrite_png _ img) as [b|]; [|by eauto].
    right. exists name, b. split; [done|]. split; [by eauto|].
    rewrite Hrun. cbn [mbind option_bind].
    destruct (cv2_imencode_png img); [done|]. by rewrite app_nil_r.
  - left. by rewrite unlink_absent.
Qed.

Lemma lookup_unlink p q w :
  fs (unlink p w) !! q = if decide (p = q) then None else fs w !! q.
Proof. unfold unlink. cbn [fs]. apply lookup_delete. Qed.

Lemma entropy_unlink p w : entropy (unlink p w) = entropy w.
Proof. done. Qed.

Lemma entropy_store p c w : entropy (store p c w) = entropy w.
Proof. done. Qed.

(** The loop of [confirm_bulk]: it ends, it only deletes staged files of
    the request, every staged file of the request is gone afterwards, and
    the archive names are distinct and derived from the items' texts. *)
Lemma bulk_loop_run data w :
  ∃ w' zip,
    for_enumerate bulk_item 0 data [] w = (w', Ok zip)
    ∧ entropy w' = entropy w
    ∧ (∀ p, fs w' !! p = fs w !! p
            ∨ (fs w' !! p = None ∧ ∃ it, it ∈ data ∧ p = temp_path_of it))
    ∧ (∀ it, it ∈ data → fs w' !! temp_path_of it = None)
    ∧ NoDup zip.*1
    ∧ (∀ name encoded, (name, encoded) ∈ zip →
         ∃ it, it ∈ data ∧ named_after (item_text it) name).
Proof.
  set (P := λ (i : nat) (w' : world) (zip : archive),
    entropy w' = entropy w
    ∧ (∀ p, fs w' !! p = fs w !! p
            ∨ (fs w' !! p = None ∧ ∃ it, it ∈ data ∧ p = temp_path_of it))
    ∧ (∀ j it, j < i → data !! j = Some it → fs w' !! temp_path_of it = None)
    ∧ NoDup zip.*1
    ∧ (∀ name encoded, (name, encoded) ∈ zip →
         ∃ it, it ∈ data ∧ named_after (item_text it) name)).
  destruct (for_enumerate_inv bulk_item data P) with (acc := @nil (string * string)) (w := w)
    as (w' & zip & Hrun & Hent & Hfs & Hgone & Hnd & Hnames).
  - intros i it zip w1 Hit (Hent & Hfs & Hgone & Hnd & Hnames).
    destruct (bulk_item_effect i it zip w1) as (zip' & Hrun & Hzip).
    exists (unlink (temp_path_of it) w1), zip'. split; [done|].
    assert (Hin : it ∈ data) by by eapply list_elem_of_lookup_2.
    split; [done|]. split; [|split].
    + intros p. rewrite lookup_unlink. case_decide as Hp; [|apply Hfs].
      destruct (Hfs p) as [Heq|[Hnone Hex]]; [|by auto].
      right. split; [done|]. by eauto.
    + intros j it' Hj Hit'. rewrite lookup_unlink. case_decide; [done|].
      destruct (decide (j = i)) as [->|Hne]; [congruence|].
      apply (Hgone j); [lia|done].
    + destruct Hzip as [->|(name & encoded & -> & Hname)]; [done|].
      split.
      * rewrite fmap_app. apply NoDup_app. split; [done|]. split; [|apply NoDup_singleton].
        intros n Hn Hn'. apply list_elem_of_singleton in Hn'. subst n.
        destruct Hname as [Hfree _]. unfold in_namelist in Hfree.
        by apply bool_decide_eq_false in Hfree.
      * intros n b Hnb. apply elem_of_app in Hnb as [Hnb|Hnb]; [by eauto|].
        apply list_elem_of_singleton in Hnb. injection Hnb as -> ->.
        exists it. split; [done|]. by eapply first_free_named_after.
  - unfold P. split; [done|]. split; [by auto|]. split; [intros; lia|].
    split; [apply NoDup_nil_2|]. intros n b Hnb. by apply elem_of_nil in Hnb.
  - exists w', zip. split; [done|]. split; [done|]. split; [done|].
    split; [|done]. intros it Hit. apply list_elem_of_lookup_1 in Hit as [j Hj].
    apply (Hgone j); [|done]. by eapply lookup_lt_Some.
Qed.

Lemma confirm_bulk_run data w :
  ∃ w' zip,
    confirm_bulk data w = (w', Ok (ZipAttachment "extracted_images.zip" zip))
    ∧ for_enumerate bulk_item 0 data [] w = (w', Ok zip).
Proof.
  destruct (bulk_loop_run data w) as (w' & zip & Hrun & _).
  exists w', zip. split; [|done].
  unfold confirm_bulk, try_except, bind. by rewrite Hrun.
Qed.

Lemma temp_path_of_is_temp it : is_temp_path (temp_path_of it).
Proof. by eexists. Qed.

Lemma is_temp_path_not_in_upload_folder p : is_temp_path p → ¬ in_upload_folder p.
Proof. intros [name ->]. apply temp_path_not_in_upload_folder. Qed.

Lemma is_temp_path_not_db : ¬ is_temp_path db_file.
Proof. intros [name Hname]. symmetry in Hname. by apply temp_path_not_db in Hname. Qed.

Lemma db_file_not_in_upload_folder : ¬ in_upload_folder db_file.
Proof. done. Qed.

Lemma first_free_in_uploads_absent (files : gmap string content) safe name :
  first_free_name (exists_in_uploads files) safe name →
  files !! OsPath.join UPLOAD_FOLDER name = None.
Proof.
  intros [Hfree _]. apply bool_decide_eq_false in Hfree.
  by apply eq_None_not_Some.
Qed.

(** The loop of [save_brand_visual]. *)
Lemma save_loop_run slides w :
  ∃ w' saved zip,
    for_enumerate save_slide 0 slides ([], []) w = (w', Ok (saved, zip))
    ∧ entropy w' = entropy w
    ∧ (∀ p, ¬ is_temp_path p → ¬ in_upload_folder p → fs w' !! p = fs w !! p)
    ∧ (∀ p, ¬ is_temp_path p → is_Some (fs w !! p) → fs w' !! p = fs w !! p)
    ∧ (∀ slide, slide ∈ slides → fs w' !! temp_path_of slide = None)
    ∧ Forall (records_slide slides) saved
    ∧ increasing_order saved
    ∧ (∀ name encoded, (name, encoded) ∈ zip →
         ∃ r, r ∈ saved ∧ img_filename r = name).
Proof.
  set (P := λ (i : nat) (w' : world) (acc : list saved_image * archive),
    entropy w' = entropy w
    ∧ (∀ p, ¬ is_temp_path p → ¬ in_upload_folder p → fs w' !! p = fs w !! p)
    ∧ (∀ p, ¬ is_temp_path p → is_Some (fs w !! p) → fs w' !! p = fs w !! p)
    ∧ (∀ j it, j < i → slides !! j = Some it → fs w' !! temp_path_of it = None)
    ∧ Forall (λ r, records_slide slides r ∧ img_order r ≤ i) acc.1
    ∧ increasing_order acc.1
    ∧ (∀ name encoded, (name, encoded) ∈ acc.2 →
         ∃ r, r ∈ acc.1 ∧ img_filename r = name)).
  destruct (for_enumerate_inv save_slide slides P)
    with (acc := (@nil saved_image, @nil (string * string))) (w := w)
    as (w' & [saved zip] & Hrun & Hent & Hout & Hkeep & Hgone & Hrec & Hinc & Hzip).
  - intros i it [saved zip] w1 Hit (Hent & Hout & Hkeep & Hgone & Hrec & Hinc & Hzip).
    cbn [fst snd] in *.
    assert (Htemp := temp_path_of_is_temp it).
    assert (Hgone' : ∀ j it', j < S i → slides !! j = Some it' →
      temp_path_of it ≠ temp_path_of it' → fs w1 !! temp_path_of it' = None).
    { intros j it' Hj Hit' Hne. destruct (decide (j = i)) as [Heq|Hji].
      - subst j. congruence.
      - apply (Hgone j); [lia|done]. }
    destruct (save_slide_effect i it saved zip w1)
      as [Hrun|(name & b & Hname & Hstaged & Hrun)]; cbv zeta in Hrun.
    + exists (unlink (temp_path_of it) w1), (saved, zip). split; [done|].
      cbn [fst snd]. split; [done|]. split; [|split; [|split; [|split; [|done]]]].
      * intros p Hp1 Hp2. rewrite lookup_unlink. case_decide; [by subst|auto].
      * intros p Hp1 Hp2. rewrite lookup_unlink. case_decide; [by subst|auto].
      * intros j it' Hj Hit'. rewrite lookup_unlink. case_decide; [done|].
        by eapply Hgone'.
      * eapply Forall_impl; [done|]. intros r [??]. split; [done|lia].
    + set (fp := OsPath.join UPLOAD_FOLDER name) in *.
      assert (Hfp : in_upload_folder fp) by by eapply policy_name_in_upload_folder.
      assert (Hfp' : ¬ is_temp_path fp).
      { intros Ht. by apply is_temp_path_not_in_upload_folder in Ht. }
      assert (Hnew : fs w1 !! fp = None) by by eapply first_free_in_uploads_absent.
      eexists _, _. split; [exact Hrun|]. cbn [fst snd].
      split; [done|]. split; [|split; [|split; [|split; [|split]]]].
      * intros p Hp1 Hp2. rewrite lookup_unlink. case_decide; [by subst|].
        rewrite lookup_store_ne; [auto|]. by intros <-.
      * intros p Hp1 Hp2. rewrite lookup_unlink. case_decide; [by subst|].
        rewrite lookup_store_ne; [auto|]. intros <-.
        rewrite <-(Hkeep fp), Hnew in Hp2 by done. by destruct Hp2.
      * intros j it' Hj Hit'. rewrite lookup_unlink. case_decide; [done|].
        rewrite lookup_store_ne; [by eapply Hgone'|].
        intros Heq. apply Hfp'. rewrite Heq. apply temp_path_of_is_temp.
      * apply Forall_app. split.
        -- eapply Forall_impl; [done|]. intros r [??]. split; [done|lia].
        -- apply Forall_singleton. cbn [img_order]. split; [|lia].
           split; [cbn [img_order]; lia|]. exists it. cbn [img_order img_ocr_text img_filename img_path].
           replace (i + 1 - 1) with i by lia.
           split; [done|]. split; [done|]. split; [|done].
           by eapply first_free_named_after.
      * intros j k r1 r2 Hj Hk Hjk.
        apply lookup_app_Some in Hk as [Hk|[Hlen Hk]].
        -- apply lookup_app_Some in Hj as [Hj|[Hlen' _]].
           ++ by eapply Hinc.
           ++ apply lookup_lt_Some in Hk. lia.
        -- apply list_lookup_singleton_Some in Hk as [Hk0 <-]. cbn [img_order].
           apply lookup_app_Some in Hj as [Hj|[Hlen' Hj]].
           ++ eapply Forall_lookup_1 in Hrec as [_ Hle]; [|done]. lia.
           ++ apply list_lookup_singleton_Some in Hj as [Hj0 _]. lia.
      * intros n enc Hn. apply elem_of_app in Hn as [Hn|Hn].
        -- destruct (Hzip n enc Hn) as (r & Hr & <-). exists r.
           split; [|done]. apply elem_of_app. by left.
        -- destruct (decoded (fs w1 !! temp_path_of it) ≫= cv2_imencode_png);
             [|by apply elem_of_nil in Hn].
           apply list_elem_of_singleton in Hn. injection Hn as -> ->.
           eexists. split; [apply elem_of_app; right; apply list_elem_of_singleton; reflexivity|done].
  - unfold P. cbn [fst snd]. split; [done|]. split; [done|]. split; [done|].
    split; [intros; lia|]. split; [apply Forall_nil_2|].
    split; [intros j k r1 r2 Hj; by rewrite lookup_nil in Hj|].
    intros n b Hnb. by apply elem_of_nil in Hnb.
  - cbn [fst snd] in *. exists w', saved, zip. split; [done|]. split; [done|].
    split; [done|]. split; [done|]. split; [|split; [|done]].
    + intros it Hit. apply list_elem_of_lookup_1 in Hit as [j Hj].
      apply (Hgone j); [|done]. by eapply lookup_lt_Some.
    + eapply Forall_impl; [done|]. by intros r [??].
Qed.

Lemma load_db_run w :
  load_db w = (w, match catalog w with
                  | Some db => Ok db
                  | None => Raise "JSONDecodeError"
                  end).
Proof.
  unfold load_db, catalog. by destruct (fs w !! db_file) as [[b|d]|].
Qed.

Lemma catalog_store_db d w : catalog (store db_file (JsonDb d) w) = Some d.
Proof. unfold catalog. by rewrite lookup_store_eq. Qed.

Lemma catalog_unchanged w w' :
  fs w' !! db_file = fs w !! db_file → catalog w' = catalog w.
Proof. unfold catalog. by intros ->. Qed.

(** [save_brand_visual], branch by branch. *)
Lemma save_brand_visual_run data w :
  let brand_name := strip (default "" (brandName data)) in
  let slides := default [] (slides data) in
  if bool_decide (brand_name = "") || bool_decide (slides = []) then
    save_brand_visual data w
    = (w, Ok (JsonError 400 "Brand name and slides are required"))
  else
    match catalog w with
    | None =>
        save_brand_visual data w
        = (w, Ok (JsonError 500 "Internal Server Error: JSONDecodeError"))
    | Some db =>
        ∃ w1 saved zip,
          for_enumerate save_slide 0 slides ([], []) (tick (tick w))
          = (w1, Ok (saved, zip))
          ∧ save_brand_visual data w
            = (store db_file
                 (JsonDb (db ++ [DbEntry (uuid4 (entropy w)) brand_name
                                   (default 1%Z (sequence data)) saved
                                   (now_isoformat (S (entropy w)))])) w1,
               Ok (ZipAttachment "brand_visual_slides.zip" zip))
    end.
Proof.
  cbv zeta. unfold save_brand_visual. cbv zeta.
  destruct (bool_decide _ || bool_decide _); [done|].
  unfold try_except, bind. rewrite load_db_run.
  destruct (catalog w) as [db|]; [|done].
  unfold uuid_uuid4, datetime_now. cbv beta iota.
  destruct (save_loop_run (default [] (slides data)) (tick (tick w)))
    as (w1 & saved & zip & Hrun & _).
  exists w1, saved, zip. split; [done|]. by rewrite Hrun.
Qed.

(** The loop of the upload routes writes below [temp_dir] only. *)
Lemma stage_loop_run with_filename files w :
  ∃ w' results,
    for_enumerate (stage_file with_filename) 0 files [] w = (w', Ok results)
    ∧ (∀ p, ¬ is_temp_path p → fs w' !! p = fs w !! p).
Proof.
  set (P := λ (i : nat) (w' : world) (results : list preview),
    ∀ p, ¬ is_temp_path p → fs w' !! p = fs w !! p).
  destruct (for_enumerate_inv (stage_file with_filename) files P)
    with (acc := @nil preview) (w := w) as (w' & results & Hrun & Hfs).
  - intros i file results w1 _ Hfs.
    pose proof (stage_file_run with_filename i file results w1) as Hrun.
    cbv zeta in Hrun.
    set (tp := OsPath.join temp_dir _) in Hrun.
    assert (Htp : is_temp_path tp) by by eexists.
    destruct (bool_decide _); [by eauto|].
    destruct (cv2_decode (stream file)) as [img|].
    + destruct Hrun as [text Hrun]. eexists _, _. split; [exact Hrun|].
      intros p Hp. rewrite lookup_store_ne by (by intros <-). by apply Hfs.
    + eexists _, _. split; [exact Hrun|].
      intros p Hp. rewrite lookup_unlink. case_decide; [by subst|].
      rewrite lookup_store_ne by (by intros <-). by apply Hfs.
  - by intros p _.
  - by eauto.
Qed.

Lemma upload_run form w :
  ∃ w' r,
    upload form w = (w', Ok r)
    ∧ (∀ p, ¬ is_temp_path p → fs w' !! p = fs w !! p)
    ∧ match r with
      | UploadJson _ results => results ≠ []
      | JsonError status _ => status = 400
      | _ => False
      end.
Proof.
  unfold upload, try_except. cbv zeta.
  set (files := request_files _ form).
  destruct (bool_decide (files = [])); [by eauto|].
  destruct (_ && _); [by eauto|].
  unfold bind.
  destruct (stage_loop_run false files w) as (w' & results & -> & Hfs).
  destruct (bool_decide (results = [])) eqn:Hres; [by eauto|].
  apply bool_decide_eq_false in Hres. by eauto.
Qed.

Lemma upload_brand_slides_run files w :
  ∃ w' r,
    upload_brand_slides files w = (w', Ok r)
    ∧ (∀ p, ¬ is_temp_path p → fs w' !! p = fs w !! p)
    ∧ match r with
      | UploadJson _ results => results ≠ []
      | JsonError status _ => status = 400
      | _ => False
      end.
Proof.
  unfold upload_brand_slides, try_except.
  destruct (bool_decide (files = [])); [by eauto|].
  unfold bind.
  destruct (stage_loop_run true files w) as (w' & results & -> & Hfs).
  destruct (bool_decide (results = [])) eqn:Hres; [by eauto|].
  apply bool_decide_eq_false in Hres. by eauto.
Qed.

End Handlers.

(** ** Stripping *)

Module StripFacts.
Import PyStr Naming StrFacts NamingFacts.

Lemma lstrip_first s c : first_char (lstrip s) = Some c → isspace c = false.
Proof.
  induction s as [|d s IH]; [done|]. cbn [lstrip].
  destruct (isspace d) eqn:Hd; [done|]. cbn [first_char]. by intros [= <-].
Qed.

Lemma lstrip_suffix s : ∃ pre, s = pre +:+ lstrip s.
Proof.
  induction s as [|d s [pre IH]]; [by exists ""|]. cbn [lstrip].
  destruct (isspace d).
  - exists (String d pre). by rewrite sapp_cons, <-IH.
  - by exists "".
Qed.

Lemma lstrip_last s c : last_char (lstrip s) = Some c → last_char s = Some c.
Proof.
  destruct (lstrip_suffix s) as [pre Hs].
  destruct (lstrip s) as [|d t] eqn:Hl; [done|].
  intros Hlast. rewrite Hs. by rewrite last_char_app_cons.
Qed.

Lemma rstrip_last s c : last_char (rstrip s) = Some c → isspace c = false.
Proof.
  induction s as [|d s IH]; [done|]. cbn [rstrip].
  destruct (rstrip s) as [|e r].
  - destruct (isspace d) eqn:Hd; [done|]. cbn [last_char]. by intros [= <-].
  - intros Hlast. apply IH. exact Hlast.
Qed.

Lemma strip_no_surrounding_space s : no_surrounding_space (strip s).
Proof.
  split; intros c Hc.
  - by eapply lstrip_first.
  - by eapply rstrip_last, lstrip_last.
Qed.

Lemma transliterate_first s :
  first_char (transliterate s) = safe_char <$> first_char s.
Proof. by destruct s. Qed.

Lemma transliterate_last s :
  last_char (transliterate s) = safe_char <$> last_char s.
Proof.
  induction s as [|d s IH]; [done|].
  cbn [transliterate join_map last_char].
  destruct s as [|e s]; [done|]. exact IH.
Qed.

Lemma isspace_safe_char c : isspace (safe_char c) = true → isspace c = true.
Proof. destruct c as [[] [] [] [] [] [] [] []]; by vm_compute. Qed.

Lemma safe_name_no_surrounding_space s :
  no_surrounding_space s → no_surrounding_space (safe_name s).
Proof.
  intros [Hfirst Hlast].
  destruct (safe_name_cases s) as [[_ ->]|[_ ->]].
  - split; intros c [= <-]; done.
  - split; intros c; rewrite ?transliterate_first, ?transliterate_last.
    + destruct (first_char s) as [d|]; [|done]. intros [= <-].
      apply not_true_is_false. intros Hsp%isspace_safe_char.
      by rewrite (Hfirst d) in Hsp.
    + destruct (last_char s) as [d|]; [|done]. intros [= <-].
      apply not_true_is_false. intros Hsp%isspace_safe_char.
      by rewrite (Hlast d) in Hsp.
Qed.

Lemma all_chars_last p s c :
  all_chars p s = true → last_char s = Some c → p c = true.
Proof.
  induction s as [|d s IH]; [done|]. cbn [all_chars last_char].
  rewrite andb_true_iff. intros [Hd Hs].
  destruct s as [|e s]; [by intros [= <-]|]. by apply IH.
Qed.

Lemma digit_not_space c : between 48 57 c = true → isspace c = false.
Proof. destruct c as [[] [] [] [] [] [] [] []]; by vm_compute. Qed.

(** A name derived from a text has no whitespace at either end of its
    stem, whatever surrounded the text. *)
Lemma named_after_no_surrounding_space text name :
  named_after text name →
  ∃ stem, name = stem +:+ ".png" ∧ no_surrounding_space stem.
Proof.
  intros (stem & -> & Hstem). exists stem. split; [done|].
  pose proof (safe_name_no_surrounding_space _ (strip_no_surrounding_space text))
    as [Hfirst Hlast].
  destruct Hstem as [->|(k & _ & ->)]; [done|].
  split; intros c.
  - rewrite first_char_app.
    destruct (first_char (safe_name (strip text))) as [d|] eqn:Hd.
    + intros [= <-]. by apply Hfirst.
    + by destruct (safe_name (strip text)) eqn:Hs;
        [apply safe_name_nonempty in Hs|].
  - destruct (pretty k) as [|d t] eqn:Hk; [by apply pretty_nat_nonempty in Hk|].
    rewrite <-sapp_assoc, last_char_app_cons. intros Hc.
    apply digit_not_space. eapply all_chars_last; [|done].
    rewrite <-Hk. apply pretty_nat_digits.
Qed.

End StripFacts.

(** * The claims *)

Section TextExtractor.
Context `{E : Externals}.
Import PyStr.

(** C1. [extract_main_text] never raises.  On an empty OCR result it
    returns ["No text detected"]; on a non-empty one it returns the
    stripped text of a detection whose vertical span, the absolute
    difference of the y-coordinates of the top-left and the bottom-left
    corner, is the greatest of the list; when the OCR engine raises, it
    returns ["OCR failed"]. *)
Theorem extract_main_text_selects_tallest (image_path : string) (w : world) :
  match easyocr_readtext (fs w !! image_path) with
  | Ocr.Results [] =>
      extract_main_text image_path w = (w, Ok "No text detected")
  | Ocr.Results (x :: rest) =>
      ∃ largest,
        largest ∈ x :: rest
        ∧ (∀ d, d ∈ x :: rest →
             (Z.abs (Ocr.py (Ocr.top_left d) - Ocr.py (Ocr.bottom_left d))
              ≤ Z.abs (Ocr.py (Ocr.top_left largest)
                       - Ocr.py (Ocr.bottom_left largest)))%Z)
        ∧ extract_main_text image_path w = (w, Ok (strip (Ocr.text largest)))
  | Ocr.Raised _ => extract_main_text image_path w = (w, Ok "OCR failed")
  end.
Proof.
  rewrite extract_main_text_run.
  destruct (easyocr_readtext _) as [e|[|x rest]]; [done..|].
  destruct (max_from_spec Ocr.span x rest) as [Hin Hmax].
  exists (Ocr.max_from Ocr.span x rest). split; [done|]. split; [|done].
  intros d Hd. apply (Hmax d Hd).
Qed.

End TextExtractor.

Section NamingPolicy.
Import PyStr Naming StrFacts NamingFacts.
Local Open Scope nat_scope.

Lemma first_free_well_formed taken text name :
  first_free_name taken (safe_name text) name → well_formed_name name.
Proof.
  intros (stem & -> & Hstem)%first_free_name_stem. exists stem.
  split; [done|].
  destruct Hstem as [->|(k & _ & ->)].
  - split; [apply safe_name_nonempty|apply safe_name_keep].
  - split.
    + intros Heq. apply (f_equal String.length) in Heq.
      rewrite sapp_length in Heq. cbn [String.length] in Heq.
      pose proof (safe_name_nonempty text).
      destruct (safe_name text); [done|]. cbn [String.length] in Heq. lia.
    + rewrite !all_chars_app, safe_name_keep. cbn [andb].
      rewrite andb_true_iff. split; [done|].
      eapply all_chars_impl; [|apply pretty_nat_digits].
      intros c Hc. unfold keep, isalnum. by rewrite Hc.
Qed.

Lemma first_free_matches_pattern taken text name :
  all_chars is_ascii text = true →
  first_free_name taken (safe_name text) name →
  matches_png_pattern name = true.
Proof.
  intros Hascii (stem & -> & Hstem)%first_free_name_stem.
  pose proof (safe_name_nonempty text) as Hne.
  pose proof (safe_name_regex_class text Hascii) as Hclass.
  apply matches_png_pattern_app.
  - destruct Hstem as [->|(k & _ & ->)]; [done|].
    by destruct (safe_name text).
  - destruct Hstem as [->|(k & _ & ->)]; [done|].
    rewrite !all_chars_app, Hclass. cbn [andb].
    rewrite andb_true_iff. split; [done|].
    eapply all_chars_impl; [apply digit_regex_class|apply pretty_nat_digits].
Qed.

(** C2, as the code has it.  The transliteration keeps each character
    that [str.isalnum] accepts or that is a space, a hyphen or an
    underscore, and puts an underscore for every other one; an empty result
    becomes ["unnamed"].  In either namespace (the upload folder, the
    archive's name list) the collision loop ends and yields the first free
    name among [safe.png], [safe_1.png], [safe_2.png], ...: a non-empty stem
    of kept characters with the extension, free in the namespace when it is
    chosen.  It matches [^[A-Za-z0-9 _-]+\.png$] when the text is ASCII;
    [str.isalnum] also accepts letters and digits outside ASCII. *)
Theorem naming_policy (text : string) :
  String.length (transliterate text) = String.length text
  ∧ (∀ (i : nat) c, String.get i text = Some c →
       String.get i (transliterate text)
       = Some (if isalnum c || Ascii.eqb c " " || Ascii.eqb c "-" || Ascii.eqb c "_"
               then c else "_"%char))
  ∧ safe_name text
    = (if bool_decide (transliterate text = "") then "unnamed"
       else transliterate text)
  ∧ (∀ files : gmap string content,
       ∃ name,
         resolve (exists_in_uploads files) (S (size files)) (safe_name text)
         = Some name
         ∧ first_free_name (exists_in_uploads files) (safe_name text) name
         ∧ files !! OsPath.join UPLOAD_FOLDER name = None
         ∧ well_formed_name name
         ∧ (all_chars is_ascii text = true → matches_png_pattern name = true))
  ∧ (∀ zip : archive,
       ∃ name,
         resolve (in_namelist zip.*1) (S (length zip)) (safe_name text)
         = Some name
         ∧ first_free_name (in_namelist zip.*1) (safe_name text) name
         ∧ ¬ (name ∈ zip.*1)
         ∧ well_formed_name name
         ∧ (all_chars is_ascii text = true → matches_png_pattern name = true)).
Proof.
  split; [apply transliterate_length|].
  split; [intros i c; apply transliterate_get|].
  split.
  { unfold safe_name. by destruct (transliterate text). }
  split.
  - intros files.
    destruct (resolve_uploads_total files (safe_name text)) as [name Hname];
      [apply safe_name_nonempty|apply safe_name_keep|].
    pose proof (resolve_first_free _ _ _ _ Hname) as Hfree.
    exists name. split; [done|]. split; [done|].
    split; [by eapply first_free_in_uploads_absent|].
    split; [by eapply first_free_well_formed|].
    intros Hascii. by eapply first_free_matches_pattern.
  - intros zip.
    destruct (resolve_zip_total zip (safe_name text)) as [name Hname].
    pose proof (resolve_first_free _ _ _ _ Hname) as Hfree.
    exists name. split; [done|]. split; [done|].
    split; [|split; [by eapply first_free_well_formed|]].
    + destruct Hfree as [Hfree _]. by apply bool_decide_eq_false in Hfree.
    + intros Hascii. by eapply first_free_matches_pattern.
Qed.

End NamingPolicy.

(** C2, as the specification words it, fails: the safe name of the
    one-letter text U+00E9 is that letter, [str.isalnum] accepts it, and the
    file name matches neither pattern. *)
Lemma naming_pattern_counterexample :
  let text := String (Ascii.ascii_of_nat 233) "" in
  PyStr.isalnum (Ascii.ascii_of_nat 233) = true
  ∧ Naming.resolve (exists_in_uploads ∅) 1 (Naming.safe_name text)
    = Some (text +:+ ".png")
  ∧ Naming.matches_png_pattern (text +:+ ".png") = false
  ∧ matches_unnamed_pattern (text +:+ ".png") = false.
Proof. by vm_compute. Qed.

Section Pipeline.
Context `{E : Externals}.
Import PyStr Naming StrFacts NamingFacts PathFacts StripFacts.
Local Open Scope nat_scope.

Lemma unlink_store_same p c w : unlink p (store p c w) = unlink p w.
Proof. unfold unlink, store. cbn [fs entropy]. by rewrite delete_insert_eq. Qed.







Lemma save_brand_visual_succeeds data w db :
  strip (default "" (brandName data)) ≠ "" →
  default [] (slides data) ≠ [] →
  catalog w = Some db →
  ∃ w' entry zip,
    save_brand_visual data w
    = (w', Ok (ZipAttachment "brand_visual_slides.zip" zip))
    ∧ catalog w' = Some (db ++ [entry])%list
    ∧ entry_brand_name entry = strip (default "" (brandName data))
    ∧ Forall (records_slide (default [] (slides data))) (entry_images entry)
    ∧ increasing_order (entry_images entry)
    ∧ (∀ name encoded, (name, encoded) ∈ zip →
         ∃ r, r ∈ entry_images entry ∧ img_filename r = name)
    ∧ (∀ p, ¬ is_temp_path p → is_Some (fs w !! p) → p ≠ db_file →
         fs w' !! p = fs w !! p)
    ∧ (∀ slide, slide ∈ default [] (slides data) →
         fs w' !! temp_path_of slide = None).
Proof.
  intros Hbrand Hslides Hdb.
  pose proof (save_brand_visual_run data w) as Hrun. cbv zeta in Hrun.
  rewrite !bool_decide_eq_false_2 in Hrun by done. cbn [orb] in Hrun.
  rewrite Hdb in Hrun. destruct Hrun as (w1 & saved & zip & Hloop & Hrun).
  destruct (save_loop_run (default [] (slides data)) (tick (tick w)))
    as (w1' & saved' & zip' & Hloop' & _ & _ & Hkeep & Hgone & Hrec & Hinc & Hzip).
  rewrite Hloop in Hloop'. injection Hloop' as <- <- <-.
  eexists _, _, zip. split; [exact Hrun|].
  split; [apply catalog_store_db|]. cbn [entry_brand_name entry_images].
  split; [done|]. split; [done|]. split; [done|]. split; [done|]. split.
  - intros p Hp1 Hp2 Hp3. rewrite lookup_store_ne by done. by apply Hkeep.
  - intros slide Hslide. rewrite lookup_store_ne; [by apply Hgone|].
    intros Heq. by apply (temp_path_not_db (item_id slide +:+ item_ext slide)).
Qed.


End Pipeline.


Section BrandVisual.
Context `{E : Externals}.
Import PyStr Naming StrFacts NamingFacts PathFacts StripFacts.
Local Open Scope nat_scope.

(** C4. A [/save_brand_visual] request whose brand name is empty after
    stripping, or whose slide list is empty, is answered with status 400
    and leaves the whole state as it was: no file is read, written or
    deleted, and the catalog is not touched. *)
Theorem save_brand_visual_rejects_missing_fields (data : save_request) (w : world) :
  strip (default "" (brandName data)) = "" ∨ default [] (slides data) = [] →
  save_brand_visual data w
  = (w, Ok (JsonError 400 "Brand name and slides are required")).
Proof.
  intros Hmissing.
  pose proof (save_brand_visual_run data w) as Hrun. cbv zeta in Hrun.
  destruct Hmissing as [Hbrand|Hslides].
  - by rewrite (bool_decide_eq_true_2 _ Hbrand) in Hrun.
  - rewrite (bool_decide_eq_true_2 _ Hslides), orb_true_r in Hrun. done.
Qed.

(** C5. After a successful [/save_brand_visual] the catalog holds one
    more entry, and every image record of that entry carries as [order] the
    1-based position of its slide in the request (the record's text and file
    name are that slide's); the orders grow strictly along the list, so the
    records follow the input order. *)
Theorem save_brand_visual_order (data : save_request) (w w' : world) (zip : archive) :
  save_brand_visual data w
  = (w', Ok (ZipAttachment "brand_visual_slides.zip" zip)) →
  ∃ db entry,
    catalog w = Some db
    ∧ catalog w' = Some (db ++ [entry])%list
    ∧ Forall (records_slide (default [] (slides data))) (entry_images entry)
    ∧ increasing_order (entry_images entry).
Proof.
  intros Hsave.
  pose proof (save_brand_visual_run data w) as Hrun. cbv zeta in Hrun.
  destruct (bool_decide (strip (default "" (brandName data)) = "")) eqn:Hbrand;
    [by rewrite Hsave in Hrun|].
  destruct (bool_decide (default [] (slides data) = [])) eqn:Hslides;
    [by rewrite Hsave in Hrun|].
  cbn [orb] in Hrun. apply bool_decide_eq_false in Hbrand, Hslides.
  destruct (catalog w) as [db|] eqn:Hdb; [|by rewrite Hsave in Hrun].
  destruct (save_brand_visual_succeeds data w db Hbrand Hslides Hdb)
    as (w'' & entry & zip' & Hrun' & Hcat & _ & Hrec & Hinc & _).
  rewrite Hsave in Hrun'. injection Hrun' as -> ->.
  by exists db, entry.
Qed.

End BrandVisual.

Lemma save_brand_visual_rejects_missing_fields_witness :
  (PyStr.strip (default "" (Some "  ")) = ""
   ∨ default [] (Some [Item "a" "A" ".png"]) = [])
  ∧ @save_brand_visual sample_externals
      (SaveRequest (Some "  ") (Some [Item "a" "A" ".png"]) None) sample_world
    = (sample_world, Ok (JsonError 400 "Brand name and slides are required")).
Proof.
  split; [left; reflexivity|].
  apply (@save_brand_visual_rejects_missing_fields sample_externals).
  left. reflexivity.
Defined.

Lemma save_brand_visual_order_witness :
  ∃ db entry,
    catalog sample_world = Some db
    ∧ catalog (@save_brand_visual sample_externals sample_save_request
                 sample_world).1
      = Some (db ++ [entry])%list
    ∧ Forall (records_slide [Item "b" " B " ".png"; Item "a" "A" ".png"])
        (entry_images entry)
    ∧ increasing_order (entry_images entry).
Proof.
  apply (@save_brand_visual_order sample_externals sample_save_request
           sample_world _ [("B.png", "PNGIMG-B"); ("A_1.png", "PNGIMG-A")]).
  by vm_compute.
Defined.

(** The scenario of the specification, run: slides B then A give the
    records of order 1 and 2, in that sequence. *)
Example save_brand_visual_scenario :
  catalog (@save_brand_visual sample_externals sample_save_request
             sample_world).1
  = Some [DbEntry "uuid0" "Acme" 7
            [SavedImage "B.png" "B" "static/uploads/B.png" 1;
             SavedImage "A_1.png" "A" "static/uploads/A_1.png" 2] "t1"].
Proof. by vm_compute. Qed.

Section Frame.
Context `{E : Externals}.
Import PyStr Naming StrFacts NamingFacts PathFacts StripFacts.
Local Open Scope nat_scope.

Lemma confirm_single_effect data w :
  ∃ w' r,
    confirm_single data w = (w', Ok r)
    ∧ entropy w' = entropy w
    ∧ (∀ p, ¬ is_temp_path p → ¬ in_upload_folder p → fs w' !! p = fs w !! p)
    ∧ (∀ p, ¬ is_temp_path p → is_Some (fs w !! p) → fs w' !! p = fs w !! p).
Proof.
  pose proof (confirm_single_run data w) as Hrun. cbv zeta in Hrun.
  assert (Htemp := temp_path_of_is_temp data).
  assert (Hunlink : ∀ w1 p, ¬ is_temp_path p →
    fs (unlink (temp_path_of data) w1) !! p = fs w1 !! p).
  { intros w1 p Hp. rewrite lookup_unlink. case_decide; [by subst|done]. }
  destruct (fs w !! temp_path_of data) as [c|] eqn:Htp; [|by eauto 10].
  destruct (decoded (Some c)) as [img|].
  - destruct Hrun as (name & Hname & Hrun).
    destruct (cv2_imwrite_png _ img) as [b|].
    + eexists _, _. split; [exact Hrun|]. split; [done|].
      assert (Hfp : in_upload_folder (OsPath.join UPLOAD_FOLDER name))
        by by eapply policy_name_in_upload_folder.
      pose proof (first_free_in_uploads_absent _ _ _ Hname) as Hnew.
      split; intros p Hp1 Hp2; rewrite Hunlink by done;
        apply lookup_store_ne; intros <-; [done|].
      rewrite Hnew in Hp2. by destruct Hp2.
    + eexists _, _. split; [exact Hrun|]. by auto.
  - eexists _, _. split; [exact Hrun|]. by auto.
Qed.

Lemma confirm_bulk_frame data w :
  ∃ w' zip,
    confirm_bulk data w = (w', Ok (ZipAttachment "extracted_images.zip" zip))
    ∧ entropy w' = entropy w
    ∧ (∀ p, fs w' !! p = fs w !! p
            ∨ (fs w' !! p = None ∧ ∃ it, it ∈ data ∧ p = temp_path_of it))
    ∧ (∀ p, ¬ is_temp_path p → fs w' !! p = fs w !! p)
    ∧ (∀ it, it ∈ data → fs w' !! temp_path_of it = None)
    ∧ NoDup zip.*1
    ∧ (∀ name encoded, (name, encoded) ∈ zip →
         ∃ it, it ∈ data ∧ named_after (item_text it) name).
Proof.
  destruct (confirm_bulk_run data w) as (w' & zip & Hrun & Hloop).
  destruct (bulk_loop_run data w)
    as (w'' & zip' & Hloop' & Hent & Hfs & Hgone & Hnd & Hnames).
  rewrite Hloop in Hloop'. injection Hloop' as <- <-.
  exists w', zip. split; [done|]. split; [done|]. split; [done|].
  split; [|done].
  intros p Hp. destruct (Hfs p) as [?|[_ (it & _ & ->)]]; [done|].
  destruct Hp. apply temp_path_of_is_temp.
Qed.

Lemma get_brand_visuals_run w :
  get_brand_visuals w
  = (w, Ok match catalog w with
           | Some db => DbJson db
           | None => JsonError 500 "JSONDecodeError"
           end).
Proof.
  unfold get_brand_visuals, try_except, bind. rewrite load_db_run.
  by destruct (catalog w).
Qed.

End Frame.

Section Staging.
Context `{E : Externals}.
Import PyStr Naming StrFacts NamingFacts PathFacts StripFacts.
Local Open Scope nat_scope.

(** C9. When the staged file of a [/confirm_single] request exists, the
    request answers and the staged file is gone afterwards, whatever the
    outcome: status 500 "Failed to process image" when the file does not
    decode, status 500 "Failed to save image" when the write fails, the
    download link otherwise.  The same request sent again gets 404 "Temp
    file not found". *)
Theorem confirm_single_consumes_the_staged_file (data : item) (w : world) :
  is_Some (fs w !! temp_path_of data) →
  ∃ w' r,
    confirm_single data w = (w', Ok r)
    ∧ fs w' !! temp_path_of data = None
    ∧ match decoded (fs w !! temp_path_of data) with
      | None => r = JsonError 500 "Failed to process image"
      | Some img =>
          ∃ name,
            first_free_name (exists_in_uploads (fs w))
              (safe_name (strip (item_text data))) name
            ∧ match cv2_imwrite_png (OsPath.join UPLOAD_FOLDER name) img with
              | None => r = JsonError 500 "Failed to save image"
              | Some _ => r = DownloadLink ("/download/" +:+ name)
              end
      end
    ∧ confirm_single data w' = (w', Ok (JsonError 404 "Temp file not found")).
Proof.
  intros [c Htp].
  assert (Hretry : ∀ w1, fs w1 !! temp_path_of data = None →
    confirm_single data w1 = (w1, Ok (JsonError 404 "Temp file not found"))).
  { intros w1 Hw1. pose proof (confirm_single_run data w1) as Hrun.
    cbv zeta in Hrun. by rewrite Hw1 in Hrun. }
  pose proof (confirm_single_run data w) as Hrun. cbv zeta in Hrun.
  rewrite Htp in Hrun |- *.
  destruct (decoded (Some c)) as [img|].
  - destruct Hrun as (name & Hname & Hrun).
    destruct (cv2_imwrite_png _ img) as [b|] eqn:Hwrite;
      (eexists _, _; split; [exact Hrun|]);
      (split; [apply lookup_unlink_eq|]);
      (split; [|apply Hretry, lookup_unlink_eq]);
      exists name; (split; [done|]); by rewrite Hwrite.
  - eexists _, _. split; [exact Hrun|].
    split; [apply lookup_unlink_eq|]. split; [done|].
    apply Hretry, lookup_unlink_eq.
Qed.

End Staging.

Lemma confirm_single_consumes_the_staged_file_witness :
  is_Some (fs sample_world !! temp_path_of (Item "a" " A " ".png"))
  ∧ ∃ w' r,
      @confirm_single sample_externals (Item "a" " A " ".png") sample_world
      = (w', Ok r)
      ∧ fs w' !! temp_path_of (Item "a" " A " ".png") = None.
Proof.
  assert (Hstaged :
    is_Some (fs sample_world !! temp_path_of (Item "a" " A " ".png"))).
  { eexists. reflexivity. }
  split; [exact Hstaged|].
  destruct (@confirm_single_consumes_the_staged_file sample_externals
              (Item "a" " A " ".png") sample_world Hstaged)
    as (w' & r & Hrun & Hgone & _).
  exists w', r. split; [exact Hrun|exact Hgone].
Defined.

(** The three outcomes of C9, run: success, decode failure, write
    failure; each leaves no staged file behind. *)
Example confirm_single_outcomes :
  let run id_ := @confirm_single sample_externals (Item id_ " A " ".png")
                   sample_world in
  (run "a").2 = Ok (DownloadLink "/download/A_1.png")
  ∧ (run "bad").2 = Ok (JsonError 500 "Failed to process image")
  ∧ (run "w").2 = Ok (JsonError 500 "Failed to save image")
  ∧ fs (run "a").1 !! "static/temp/a.png" = None
  ∧ fs (run "bad").1 !! "static/temp/bad.png" = None
  ∧ fs (run "w").1 !! "static/temp/w.png" = None.
Proof. by vm_compute. Qed.

Section Stripping.
Context `{E : Externals}.
Import PyStr Naming StrFacts NamingFacts PathFacts StripFacts.
Local Open Scope nat_scope.

Lemma named_after_stripped text name :
  named_after text name → stripped_name text name.
Proof.
  intros Hname. split; [done|].
  by apply (named_after_no_surrounding_space text).
Qed.

(** C10. In the three confirm and save routes the text of an item is
    stripped before it is transliterated.  The download link of
    [/confirm_single], every member name of the archive of [/confirm_bulk],
    and every file name recorded and archived by [/save_brand_visual] is
    the safe name of the stripped text of an item of the request, with a
    counter suffix when needed, and has no whitespace at either end of its
    stem; the recorded text is the stripped text.  The text [" A "] gives
    [A.png]. *)
Theorem text_is_stripped_before_naming :
  (∀ data w w' link,
     confirm_single data w = (w', Ok (DownloadLink link)) →
     ∃ name, link = "/download/" +:+ name
       ∧ stripped_name (item_text data) name)
  ∧ (∀ data w w' zip name encoded,
       confirm_bulk data w
       = (w', Ok (ZipAttachment "extracted_images.zip" zip)) →
       (name, encoded) ∈ zip →
       ∃ it, it ∈ data ∧ stripped_name (item_text it) name)
  ∧ (∀ data w w' zip,
       save_brand_visual data w
       = (w', Ok (ZipAttachment "brand_visual_slides.zip" zip)) →
       ∃ db entry,
         catalog w' = Some (db ++ [entry])%list
         ∧ (∀ r, r ∈ entry_images entry →
              ∃ slide, slide ∈ default [] (slides data)
                ∧ img_ocr_text r = strip (item_text slide)
                ∧ stripped_name (item_text slide) (img_filename r))
         ∧ (∀ name encoded, (name, encoded) ∈ zip →
              ∃ slide, slide ∈ default [] (slides data)
                ∧ stripped_name (item_text slide) name))
  ∧ safe_name (strip " A ") +:+ ".png" = "A.png".
Proof.
  split; [|split; [|split; [|done]]].
  - intros data w w' link Hrun.
    pose proof (confirm_single_run data w) as Hspec. cbv zeta in Hspec.
    destruct (fs w !! temp_path_of data) as [c|]; [|by rewrite Hrun in Hspec].
    destruct (decoded (Some c)) as [img|]; [|by rewrite Hrun in Hspec].
    destruct Hspec as (name & Hname & Hspec).
    destruct (cv2_imwrite_png _ img) as [b|]; [|by rewrite Hrun in Hspec].
    rewrite Hrun in Hspec. injection Hspec as _ ->.
    exists name. split; [done|].
    by eapply named_after_stripped, first_free_named_after.
  - intros data w w' zip name encoded Hrun Hin.
    destruct (confirm_bulk_frame data w)
      as (w1 & zip1 & Hrun1 & _ & _ & _ & _ & _ & Hnames).
    rewrite Hrun in Hrun1. injection Hrun1 as -> ->.
    destruct (Hnames name encoded Hin) as (it & Hit & Hname).
    exists it. split; [done|]. by apply named_after_stripped.
  - intros data w w' zip Hrun.
    pose proof (save_brand_visual_run data w) as Hspec. cbv zeta in Hspec.
    destruct (bool_decide (strip (default "" (brandName data)) = "")) eqn:Hbrand;
      [by rewrite Hrun in Hspec|].
    destruct (bool_decide (default [] (slides data) = [])) eqn:Hslides;
      [by rewrite Hrun in Hspec|].
    cbn [orb] in Hspec. apply bool_decide_eq_false in Hbrand, Hslides.
    destruct (catalog w) as [db|] eqn:Hdb; [|by rewrite Hrun in Hspec].
    destruct (save_brand_visual_succeeds data w db Hbrand Hslides Hdb)
      as (w'' & entry & zip' & Hrun' & Hcat & _ & Hrec & _ & Hzip & _).
    rewrite Hrun in Hrun'. injection Hrun' as -> ->.
    assert (Hrecs : ∀ r, r ∈ entry_images entry →
      ∃ slide, slide ∈ default [] (slides data)
        ∧ img_ocr_text r = strip (item_text slide)
        ∧ stripped_name (item_text slide) (img_filename r)).
    { intros r Hr. eapply Forall_forall in Hrec; [|done].
      destruct Hrec as (_ & slide & Hslide & Htext & Hname & _).
      exists slide. split; [by eapply list_elem_of_lookup_2|].
      split; [done|]. by apply named_after_stripped. }
    exists db, entry. split; [done|]. split; [done|].
    intros name encoded Hin. destruct (Hzip name encoded Hin) as (r & Hr & <-).
    destruct (Hrecs r Hr) as (slide & Hslide & _ & Hname). by eauto.
Qed.

End Stripping.

(** The example of C10, run through the three routes. *)
Example surrounding_spaces_are_dropped :
  (@confirm_single sample_externals (Item "b" " A " ".png") (World
     (list_to_map [("static/temp/b.png", Bytes "IMG-B")]) 0)).2
  = Ok (DownloadLink "/download/A.png")
  ∧ (@confirm_bulk sample_externals [Item "b" " A " ".png"] sample_world).2
    = Ok (ZipAttachment "extracted_images.zip" [("A.png", "PNGIMG-B")])
  ∧ (@save_brand_visual sample_externals
       (SaveRequest (Some "Acme") (Some [Item "b" " B " ".png"]) None)
       sample_world).2
    = Ok (ZipAttachment "brand_visual_slides.zip" [("B.png", "PNGIMG-B")]).
Proof. by vm_compute. Qed.

(** * Further properties of the handlers *)

Section MoreOnText.
Context `{E : Externals}.
Import PyStr Naming StrFacts NamingFacts.
Local Open Scope nat_scope.

(** [max] returns the first of the elements with the greatest key. *)
Lemma max_from_first {A} (key : A → Z) best rest :
  ∃ pre post,
    best :: rest = (pre ++ Ocr.max_from key best rest :: post)%list
    ∧ (∀ x, x ∈ pre → (key x < key (Ocr.max_from key best rest))%Z)
    ∧ (∀ x, x ∈ post → (key x ≤ key (Ocr.max_from key best rest))%Z).
Proof.
  cut (∀ rest best pre0 mid,
         (∀ x, x ∈ pre0 → (key x < key best)%Z) →
         (∀ x, x ∈ mid → (key x ≤ key best)%Z) →
         ∃ pre post,
           (pre0 ++ best :: mid ++ rest
            = pre ++ Ocr.max_from key best rest :: post)%list
           ∧ (∀ x, x ∈ pre → (key x < key (Ocr.max_from key best rest))%Z)
           ∧ (∀ x, x ∈ post → (key x ≤ key (Ocr.max_from key best rest))%Z)).
  { intros Hgen. apply (Hgen rest best [] []); intros x Hx;
      by apply elem_of_nil in Hx. }
  clear best rest. induction rest as [|y rest IH]; intros best pre0 mid Hpre Hmid.
  - exists pre0, mid. by rewrite app_nil_r.
  - cbn [Ocr.max_from]. destruct (Z.ltb_spec (key best) (key y)) as [Hlt|Hge].
    + destruct (IH y (pre0 ++ best :: mid)%list []) as (pre & post & Heq & Hp & Hq).
      * intros x Hx. apply elem_of_app in Hx as [Hx|Hx]; [specialize (Hpre x Hx); lia|].
        apply elem_of_cons in Hx as [->|Hx]; [done|]. specialize (Hmid x Hx). lia.
      * intros x Hx. by apply elem_of_nil in Hx.
      * exists pre, post. split; [|done]. rewrite <-Heq.
        by rewrite <-!app_assoc.
    + destruct (IH best pre0 (mid ++ [y])%list) as (pre & post & Heq & Hp & Hq).
      * done.
      * intros x Hx. apply elem_of_app in Hx as [Hx|Hx]; [by apply Hmid|].
        apply list_elem_of_singleton in Hx as ->. lia.
      * exists pre, post. split; [|done]. rewrite <-Heq.
        by rewrite <-!app_assoc.
Qed.

(** X1. Among several detections of the greatest vertical span,
    [extract_main_text] returns the text of the first one in the order of
    the OCR result: every detection before the chosen one is strictly
    lower, every one after it is at most as high. *)
Theorem extract_main_text_takes_the_first_tallest
    (image_path : string) (w : world) (results : list Ocr.detection) :
  easyocr_readtext (fs w !! image_path) = Ocr.Results results →
  results ≠ [] →
  ∃ pre largest post,
    results = (pre ++ largest :: post)%list
    ∧ (∀ d, d ∈ pre → (Ocr.span d < Ocr.span largest)%Z)
    ∧ (∀ d, d ∈ post → (Ocr.span d ≤ Ocr.span largest)%Z)
    ∧ extract_main_text image_path w = (w, Ok (strip (Ocr.text largest))).
Proof.
  intros Hread Hne. rewrite extract_main_text_run, Hread.
  destruct results as [|x rest]; [done|].
  destruct (max_from_first Ocr.span x rest) as (pre & post & Heq & Hpre & Hpost).
  by exists pre, (Ocr.max_from Ocr.span x rest), post.
Qed.

Lemma safe_char_idemp c : safe_char (safe_char c) = safe_char c.
Proof.
  unfold safe_char at 1. by rewrite keep_safe_char.
Qed.

Lemma transliterate_idemp text :
  transliterate (transliterate text) = transliterate text.
Proof.
  induction text as [|c text IH]; [done|].
  cbn [transliterate join_map]. rewrite safe_char_idemp. f_equal. exact IH.
Qed.

Lemma transliterate_kept text :
  all_chars keep text = true → transliterate text = text.
Proof.
  induction text as [|c text IH]; [done|].
  cbn [all_chars transliterate join_map]. rewrite andb_true_iff.
  intros [Hc Htext]. unfold safe_char at 1. rewrite Hc. f_equal. by apply IH.
Qed.

(** X2. The transliteration is idempotent, and so is the safe name: a
    safe name used again as the text of a request comes out unchanged, so
    does any stem the policy produced (a safe name with a counter suffix),
    and so does the fallback ["unnamed"]. *)
Theorem safe_name_is_idempotent (text : string) :
  safe_name (safe_name text) = safe_name text
  ∧ transliterate (transliterate text) = transliterate text
  ∧ (∀ counter : nat,
       safe_name (safe_name text +:+ "_" +:+ pretty counter)
       = safe_name text +:+ "_" +:+ pretty counter).
Proof.
  assert (Hfix : ∀ s, s ≠ "" → all_chars keep s = true → safe_name s = s).
  { intros s Hne Hkeep. unfold safe_name. rewrite transliterate_kept by done.
    by destruct s. }
  split; [|split].
  - apply Hfix; [apply safe_name_nonempty|apply safe_name_keep].
  - apply transliterate_idemp.
  - intros counter. apply Hfix.
    + pose proof (safe_name_nonempty text). by destruct (safe_name text).
    + rewrite !all_chars_app, safe_name_keep. cbn [andb all_chars].
      rewrite andb_true_iff. split; [done|].
      eapply all_chars_impl; [|apply pretty_nat_digits].
      intros c Hc. unfold keep, isalnum. by rewrite Hc.
Qed.

End MoreOnText.

Lemma extract_main_text_takes_the_first_tallest_witness :
  let results := [line_of_height 4 "small"; line_of_height 7 " first ";
                  line_of_height (-7) "second"] in
  (@easyocr_readtext three_line_externals
     (fs sample_world !! "static/temp/a.png")
   = Ocr.Results results
   ∧ results ≠ [])
  ∧ Ocr.span (line_of_height 7 " first ")
    = Ocr.span (line_of_height (-7) "second")
  ∧ (∃ pre largest post,
       results = (pre ++ largest :: post)%list
       ∧ (∀ d, d ∈ pre → (Ocr.span d < Ocr.span largest)%Z)
       ∧ (∀ d, d ∈ post → (Ocr.span d ≤ Ocr.span largest)%Z)
       ∧ @extract_main_text three_line_externals "static/temp/a.png"
           sample_world
         = (sample_world, Ok (PyStr.strip (Ocr.text largest))))
  ∧ @extract_main_text three_line_externals "static/temp/a.png" sample_world
    = (sample_world, Ok "first").
Proof.
  cbv zeta. split; [split; [reflexivity|discriminate]|].
  split; [reflexivity|]. split; [|vm_compute; reflexivity].
  apply (@extract_main_text_takes_the_first_tallest three_line_externals);
    [reflexivity|discriminate].
Defined.

(** The tie-break, run on three detections of spans 4, 7 and 7. *)
Example first_of_two_tallest :
  let box (bottom : Z) (t : string) :=
    Ocr.Detection (Ocr.Point 0 0) (Ocr.Point 9 0) (Ocr.Point 9 bottom)
      (Ocr.Point 0 bottom) t in
  Ocr.text (Ocr.max_from Ocr.span (box 4%Z "small")
              [box 7%Z "first"; box (-7)%Z "second"])
  = "first".
Proof. reflexivity. Qed.

Section MoreOnCatalog.
Context `{E : Externals}.
Import PyStr Naming StrFacts NamingFacts PathFacts.
Local Open Scope nat_scope.

(** The files that the loop of [save_brand_visual] leaves behind. *)
Lemma save_loop_files slides w :
  ∃ w' saved zip,
    for_enumerate save_slide 0 slides ([], []) w = (w', Ok (saved, zip))
    ∧ length saved ≤ length slides
    ∧ zip.*1 `sublist_of` (img_filename <$> saved)
    ∧ NoDup (img_filename <$> saved)
    ∧ (∀ r, r ∈ saved →
         img_path r = OsPath.join UPLOAD_FOLDER (img_filename r)
         ∧ in_upload_folder (img_path r)
         ∧ fs w !! img_path r = None
         ∧ ∃ b, fs w' !! img_path r = Some (Bytes b)).
Proof.
  set (P := λ (i : nat) (w' : world) (acc : list saved_image * archive),
    (∀ p, ¬ is_temp_path p → is_Some (fs w !! p) → fs w' !! p = fs w !! p)
    ∧ length acc.1 ≤ i
    ∧ acc.2.*1 `sublist_of` (img_filename <$> acc.1)
    ∧ NoDup (img_filename <$> acc.1)
    ∧ (∀ r, r ∈ acc.1 →
         img_path r = OsPath.join UPLOAD_FOLDER (img_filename r)
         ∧ in_upload_folder (img_path r)
         ∧ fs w !! img_path r = None
         ∧ ∃ b, fs w' !! img_path r = Some (Bytes b))).
  destruct (for_enumerate_inv save_slide slides P)
    with (acc := (@nil saved_image, @nil (string * string))) (w := w)
    as (w' & [saved zip] & Hrun & _ & Hlen & Hsub & Hnd & Hfiles).
  - intros i it [saved zip] w1 Hit (Hkeep & Hlen & Hsub & Hnd & Hfiles).
    cbn [fst snd] in *.
    assert (Htemp := temp_path_of_is_temp it).
    assert (Hold : ∀ w2, (∀ p, ¬ is_temp_path p → is_Some (fs w1 !! p) →
                            fs w2 !! p = fs w1 !! p) →
      ∀ r, r ∈ saved →
        img_path r = OsPath.join UPLOAD_FOLDER (img_filename r)
        ∧ in_upload_folder (img_path r)
        ∧ fs w !! img_path r = None
        ∧ ∃ b, fs w2 !! img_path r = Some (Bytes b)).
    { intros w2 Hw2 r Hr. destruct (Hfiles r Hr) as (Hp & Hin & Hnew & b & Hb).
      split; [done|]. split; [done|]. split; [done|]. exists b.
      rewrite Hw2; [done| |by eauto].
      intros Ht. by apply is_temp_path_not_in_upload_folder in Ht. }
    destruct (save_slide_effect i it saved zip w1)
      as [Hrun|(name & b & Hname & Hstaged & Hrun)]; cbv zeta in Hrun.
    + eexists _, _. split; [exact Hrun|]. unfold P. cbn [fst snd].
      assert (Hw2 : ∀ p, ¬ is_temp_path p →
        fs (unlink (temp_path_of it) w1) !! p = fs w1 !! p).
      { intros p Hp. rewrite lookup_unlink. case_decide; [by subst|done]. }
      split; [intros p Hp1 Hp2; rewrite Hw2 by done; by apply Hkeep|].
      split; [lia|]. split; [done|]. split; [done|].
      apply Hold. intros p Hp _. by apply Hw2.
    + set (fp := OsPath.join UPLOAD_FOLDER name) in *.
      assert (Hfp : in_upload_folder fp) by by eapply policy_name_in_upload_folder.
      assert (Hfp' : ¬ is_temp_path fp).
      { intros Ht. by apply is_temp_path_not_in_upload_folder in Ht. }
      assert (Hnew : fs w1 !! fp = None) by by eapply first_free_in_uploads_absent.
      assert (Hw2 : ∀ p, ¬ is_temp_path p → is_Some (fs w1 !! p) →
        fs (unlink (temp_path_of it) (store fp (Bytes b) w1)) !! p = fs w1 !! p).
      { intros p Hp1 Hp2. rewrite lookup_unlink. case_decide; [by subst|].
        apply lookup_store_ne. intros <-. rewrite Hnew in Hp2. by destruct Hp2. }
      assert (Hfresh : ∀ r, r ∈ saved → img_filename r ≠ name).
      { intros r Hr <-. destruct (Hfiles r Hr) as (Hp & _ & _ & b' & Hb').
        rewrite Hp in Hb'. fold fp in Hb'. by rewrite Hnew in Hb'. }
      eexists _, _. split; [exact Hrun|]. unfold P. cbn [fst snd].
      split; [|split; [|split; [|split]]].
      * intros p Hp1 Hp2. rewrite Hw2; [by apply Hkeep|done|].
        by rewrite Hkeep.
      * rewrite length_app. cbn [length]. lia.
      * rewrite !fmap_app. cbn [fmap list_fmap img_filename].
        destruct (decoded (fs w1 !! temp_path_of it) ≫= cv2_imencode_png).
        -- by apply sublist_app.
        -- rewrite app_nil_r. by apply sublist_inserts_r.
      * rewrite fmap_app. apply NoDup_app. split; [done|].
        split; [|apply NoDup_singleton].
        intros n Hn Hn'. apply list_elem_of_singleton in Hn' as ->.
        apply list_elem_of_fmap in Hn as (r & Hr1 & Hr2).
        by apply (Hfresh r).
      * intros r Hr. apply elem_of_app in Hr as [Hr|Hr]; [by apply Hold|].
        apply list_elem_of_singleton in Hr as ->.
        cbn [img_path img_filename]. split; [done|]. split; [done|]. split.
        -- destruct (fs w !! fp) as [c|] eqn:Hw; [|done].
           assert (Hsame : fs w1 !! fp = fs w !! fp).
           { apply Hkeep; [done|]. rewrite Hw. by eexists. }
           rewrite Hnew, Hw in Hsame. done.
        -- exists b. rewrite lookup_unlink. case_decide as Heq.
           ++ destruct Hfp'. by rewrite <-Heq.
           ++ apply lookup_store_eq.
  - unfold P. cbn [fst snd fmap list_fmap length]. split; [done|].
    split; [lia|]. split; [done|]. split; [apply NoDup_nil_2|].
    intros r Hr. by apply elem_of_nil in Hr.
  - cbn [fst snd] in *. by exists w', saved, zip.
Qed.


Lemma save_brand_visual_success_inv data w w' zip :
  save_brand_visual data w
  = (w', Ok (ZipAttachment "brand_visual_slides.zip" zip)) →
  ∃ db w1 saved,
    catalog w = Some db
    ∧ for_enumerate save_slide 0 (default [] (slides data)) ([], [])
        (tick (tick w))
      = (w1, Ok (saved, zip))
    ∧ w' = store db_file
             (JsonDb (db ++ [DbEntry (uuid4 (entropy w))
                               (strip (default "" (brandName data)))
                               (default 1%Z (sequence data)) saved
                               (now_isoformat (S (entropy w)))])) w1.
Proof.
  intros Hsave.
  pose proof (save_brand_visual_run data w) as Hrun. cbv zeta in Hrun.
  destruct (bool_decide _ || bool_decide _); [by rewrite Hsave in Hrun|].
  destruct (catalog w) as [db|]; [|by rewrite Hsave in Hrun].
  destruct Hrun as (w1 & saved & zip' & Hloop & Hrun).
  rewrite Hsave in Hrun. injection Hrun as -> ->.
  by exists db, w1, saved.
Qed.

(** X4. After a successful [/save_brand_visual], [/get_brand_visuals]
    lists the entries it listed before, followed by the new entry: its id
    is the fresh uuid, its brand name the stripped [brandName], its sequence
    the request's [sequence] (1 when the key is absent), its timestamp the
    time taken before the loop.  The entry has at most one image per slide,
    and the archive at most one member per image. *)
Theorem saved_entry_is_listed (data : save_request) (w w' : world) (zip : archive) :
  save_brand_visual data w
  = (w', Ok (ZipAttachment "brand_visual_slides.zip" zip)) →
  ∃ db saved,
    get_brand_visuals w = (w, Ok (DbJson db))
    ∧ get_brand_visuals w'
      = (w', Ok (DbJson (db ++ [DbEntry (uuid4 (entropy w))
                                  (strip (default "" (brandName data)))
                                  (default 1%Z (sequence data)) saved
                                  (now_isoformat (S (entropy w)))])%list))
    ∧ length saved ≤ length (default [] (slides data))
    ∧ length zip ≤ length saved.
Proof.
  intros Hsave.
  destruct (save_brand_visual_success_inv _ _ _ _ Hsave)
    as (db & w1 & saved & Hdb & Hloop & ->).
  destruct (save_loop_files (default [] (slides data)) (tick (tick w)))
    as (w1' & saved' & zip' & Hloop' & Hlen & Hsub & _).
  rewrite Hloop in Hloop'. injection Hloop' as <- <- <-.
  exists db, saved. rewrite !get_brand_visuals_run, Hdb, catalog_store_db.
  split; [done|]. split; [done|]. split; [done|].
  apply sublist_length in Hsub. by rewrite !length_fmap in Hsub.
Qed.

(** X5. The files of a successful [/save_brand_visual] whose slides are
    plain are distinct and present: the file names recorded in the new
    entry are pairwise different, each recorded path is [UPLOAD_FOLDER]
    joined with the name, lies in the permanent storage directory, held no
    file before the request and holds one after it, which
    [/download/<filename>] returns; the archive's member names are a
    sub-sequence of the recorded names and pairwise different. *)
Theorem saved_files_are_distinct_and_present
    (data : save_request) (w w' : world) (zip : archive) :
  forallb plain_item (default [] (slides data)) = true →
  save_brand_visual data w
  = (w', Ok (ZipAttachment "brand_visual_slides.zip" zip)) →
  ∃ db entry,
    catalog w' = Some (db ++ [entry])%list
    ∧ NoDup (img_filename <$> entry_images entry)
    ∧ zip.*1 `sublist_of` (img_filename <$> entry_images entry)
    ∧ NoDup zip.*1
    ∧ (∀ r, r ∈ entry_images entry →
         img_path r = OsPath.join UPLOAD_FOLDER (img_filename r)
         ∧ in_upload_folder (img_path r)
         ∧ fs w !! img_path r = None
         ∧ ∃ b, fs w' !! img_path r = Some (Bytes b)
             ∧ download_file (img_filename r) w'
               = (w', Ok (FileAttachment (img_path r) (Bytes b)))).
Proof.
  intros _ Hsave.
  destruct (save_brand_visual_success_inv _ _ _ _ Hsave)
    as (db & w1 & saved & Hdb & Hloop & ->).
  destruct (save_loop_files (default [] (slides data)) (tick (tick w)))
    as (w1' & saved' & zip' & Hloop' & _ & Hsub & Hnd & Hfiles).
  rewrite Hloop in Hloop'. injection Hloop' as <- <- <-.
  eexists db, _. split; [apply catalog_store_db|]. cbn [entry_images].
  split; [done|]. split; [done|]. split; [by eapply sublist_NoDup|].
  intros r Hr. destruct (Hfiles r Hr) as (Hpath & Hin & Hnew & b & Hb).
  split; [done|]. split; [done|]. split; [done|]. exists b.
  assert (Hb' : fs (store db_file
                      (JsonDb (db ++ [DbEntry (uuid4 (entropy w))
                         (strip (default "" (brandName data)))
                         (default 1%Z (sequence data)) saved
                         (now_isoformat (S (entropy w)))])) w1)
                !! img_path r = Some (Bytes b)).
  { rewrite lookup_store_ne; [done|]. intros Heq.
    by apply (in_upload_folder_not_db (img_path r)). }
  split; [done|].
  unfold download_file. cbv zeta. rewrite <-Hpath. by rewrite Hb'.
Qed.

(** X6. The download link of [/confirm_single] works: the link is
    [/download/] followed by a file name without a path separator; that
    name was not downloadable before the request (status 404) and after it
    [/download/<filename>] returns, from the permanent storage directory,
    the bytes that [cv2.imwrite] wrote for the image decoded from the staged
    file. *)
Theorem confirm_single_link_is_downloadable
    (data : item) (w w' : world) (link : string) :
  confirm_single data w = (w', Ok (DownloadLink link)) →
  ∃ name img b,
    link = "/download/" +:+ name
    ∧ all_chars (λ c, negb (Ascii.eqb c "/")) name = true
    ∧ decoded (fs w !! temp_path_of data) = Some img
    ∧ cv2_imwrite_png ("static/uploads/" +:+ name) img = Some b
    ∧ download_file name w = (w, Ok (Text 404 "File not found"))
    ∧ download_file name w'
      = (w', Ok (FileAttachment ("static/uploads/" +:+ name) (Bytes b))).
Proof.
  intros Hrun.
  pose proof (confirm_single_run data w) as Hspec. cbv zeta in Hspec.
  destruct (fs w !! temp_path_of data) as [c|] eqn:Htp;
    [|by rewrite Hrun in Hspec].
  destruct (decoded (Some c)) as [img|] eqn:Hdec; [|by rewrite Hrun in Hspec].
  destruct Hspec as (name & Hname & Hspec).
  assert (Hpath : OsPath.join UPLOAD_FOLDER name = "static/uploads/" +:+ name).
  { destruct Hname as [_ [[_ ->]|[_ (k & _ & -> & _)]]];
      apply upload_path_of_kept;
      auto using safe_name_nonempty, safe_name_keep. }
  pose proof (first_free_in_uploads_absent _ _ _ Hname) as Hnew.
  assert (Hfp : in_upload_folder (OsPath.join UPLOAD_FOLDER name))
    by by eapply policy_name_in_upload_folder.
  destruct (cv2_imwrite_png _ img) as [b|] eqn:Hwrite;
    [|by rewrite Hrun in Hspec].
  rewrite Hrun in Hspec. injection Hspec as -> ->.
  exists name, img, b. split; [done|]. split.
  { pose proof (first_free_well_formed _ _ _ Hname) as Hwf.
    destruct Hwf as (stem & -> & _ & Hkeep).
    rewrite all_chars_app. rewrite andb_true_iff. split; [|done].
    eapply all_chars_impl; [|done]. intros c' Hc'.
    apply negb_true_iff, not_true_is_false. intros Heq.
    apply Ascii.eqb_eq in Heq as ->. done. }
  split; [done|]. rewrite <-Hpath. split; [done|].
  unfold download_file. cbv zeta. rewrite Hnew. split; [done|].
  rewrite lookup_unlink. case_decide as Heq.
  - symmetry in Heq. by apply (in_upload_folder_not_temp _ _ Hfp) in Heq.
  - by rewrite lookup_store_eq.
Qed.

End MoreOnCatalog.

Lemma saved_entry_is_listed_witness :
  let out := @save_brand_visual sample_externals sample_save_request
               sample_world in
  out.2 = Ok (ZipAttachment "brand_visual_slides.zip"
                [("B.png", "PNGIMG-B"); ("A_1.png", "PNGIMG-A")])
  ∧ ∃ db saved,
      get_brand_visuals sample_world
      = (sample_world, Ok (DbJson db))
      ∧ get_brand_visuals out.1
        = (out.1, Ok (DbJson (db ++ [DbEntry "uuid0" "Acme" 7 saved "t1"])%list))
      ∧ (length saved ≤ 2)%nat
      ∧ (length [("B.png", "PNGIMG-B"); ("A_1.png", "PNGIMG-A")]
         ≤ length saved)%nat.
Proof.
  cbv zeta. split; [by vm_compute|].
  apply (@saved_entry_is_listed sample_externals sample_save_request
           sample_world).
  by vm_compute.
Defined.

Lemma saved_files_are_distinct_and_present_witness :
  let out := @save_brand_visual sample_externals sample_save_request
               sample_world in
  forallb plain_item (default [] (slides sample_save_request)) = true
  ∧ out.2 = Ok (ZipAttachment "brand_visual_slides.zip"
                  [("B.png", "PNGIMG-B"); ("A_1.png", "PNGIMG-A")])
  ∧ ∃ db entry,
    catalog out.1 = Some (db ++ [entry])%list
    ∧ NoDup (img_filename <$> entry_images entry)
    ∧ [("B.png", "PNGIMG-B"); ("A_1.png", "PNGIMG-A")].*1
      `sublist_of` (img_filename <$> entry_images entry)
    ∧ NoDup [("B.png", "PNGIMG-B"); ("A_1.png", "PNGIMG-A")].*1
    ∧ (∀ r, r ∈ entry_images entry →
         img_path r = OsPath.join UPLOAD_FOLDER (img_filename r)
         ∧ in_upload_folder (img_path r)
         ∧ fs sample_world !! img_path r = None
         ∧ ∃ b, fs out.1 !! img_path r = Some (Bytes b)
             ∧ download_file (img_filename r) out.1
               = (out.1, Ok (FileAttachment (img_path r) (Bytes b)))).
Proof.
  cbv zeta. split; [reflexivity|]. split; [vm_compute; reflexivity|].
  apply (@saved_files_are_distinct_and_present sample_externals
           sample_save_request sample_world);
    vm_compute; reflexivity.
Defined.

Lemma confirm_single_link_is_downloadable_witness :
  let out := @confirm_single sample_externals (Item "a" " A " ".png")
               sample_world in
  out.2 = Ok (DownloadLink "/download/A_1.png")
  ∧ ∃ name img b,
      "/download/A_1.png" = "/download/" +:+ name
      ∧ PyStr.all_chars (λ c, negb (Ascii.eqb c "/")) name = true
      ∧ @decoded sample_externals
          (fs sample_world !! temp_path_of (Item "a" " A " ".png"))
        = Some img
      ∧ @cv2_imwrite_png sample_externals ("static/uploads/" +:+ name) img
        = Some b
      ∧ download_file name sample_world
        = (sample_world, Ok (Text 404 "File not found"))
      ∧ download_file name out.1
        = (out.1, Ok (FileAttachment ("static/uploads/" +:+ name) (Bytes b))).
Proof.
  cbv zeta. split; [by vm_compute|].
  apply (@confirm_single_link_is_downloadable sample_externals).
  by vm_compute.
Defined.

Section MoreOnFiles.
Context `{E : Externals}.
Import PyStr Naming StrFacts NamingFacts PathFacts.
Local Open Scope nat_scope.

(** X7. No request whose items are plain overwrites or deletes an image
    of permanent storage: every file of the permanent storage directory
    that exists before the request holds afterwards what it held before.
    In particular a stored image is never replaced by a later confirm or
    save of the same text. *)
Theorem existing_files_are_kept (r : request) (w : world) :
  plain_request r = true →
  ∃ w' resp,
    serve r w = (w', Ok resp)
    ∧ ∀ name, plain_name name = true →
        is_Some (fs w !! OsPath.join UPLOAD_FOLDER name) →
        fs w' !! OsPath.join UPLOAD_FOLDER name
        = fs w !! OsPath.join UPLOAD_FOLDER name.
Proof.
  intros _.
  cut (∃ w' resp,
         serve r w = (w', Ok resp)
         ∧ ∀ p, in_upload_folder p → is_Some (fs w !! p) →
             fs w' !! p = fs w !! p).
  { intros (w' & resp & Hrun & Hkeep). exists w', resp. split; [done|].
    intros name Hname. by apply Hkeep, PlainFacts.plain_in_upload_folder. }
  assert (Htemp : ∀ p, in_upload_folder p → ¬ is_temp_path p).
  { intros p Hp Ht. by apply is_temp_path_not_in_upload_folder in Ht. }
  destruct r as [| |form|files|data| |data|data|filename]; cbn [serve].
  - by exists w, (Template "index.html").
  - by exists w, (Template "brand_visual.html").
  - destruct (upload_run form w) as (w' & r & Hrun & Hframe & _).
    exists w', r. split; [done|]. intros p Hp _. by apply Hframe, Htemp.
  - destruct (upload_brand_slides_run files w) as (w' & r & Hrun & Hframe & _).
    exists w', r. split; [done|]. intros p Hp _. by apply Hframe, Htemp.
  - pose proof (save_brand_visual_run data w) as Hrun. cbv zeta in Hrun.
    destruct (bool_decide (strip (default "" (brandName data)) = "")) eqn:Hbrand;
      [eexists _, _; split; [exact Hrun|done]|].
    destruct (bool_decide (default [] (slides data) = [])) eqn:Hslides;
      [eexists _, _; split; [exact Hrun|done]|].
    cbn [orb] in Hrun. apply bool_decide_eq_false in Hbrand, Hslides.
    destruct (catalog w) as [db|] eqn:Hcat;
      [|eexists _, _; split; [exact Hrun|done]].
    destruct (save_brand_visual_succeeds data w db Hbrand Hslides Hcat)
      as (w' & entry & zip & Hrun' & _ & _ & _ & _ & _ & Hkeep & _).
    eexists _, _. split; [exact Hrun'|]. intros p Hp1 Hp2.
    apply Hkeep; [by apply Htemp|done|by apply in_upload_folder_not_db].
  - rewrite get_brand_visuals_run. eexists _, _. split; reflexivity.
  - destruct (confirm_single_effect data w) as (w' & r & Hrun & _ & _ & Hkeep).
    eexists _, _. split; [exact Hrun|]. intros p Hp1 Hp2.
    apply Hkeep; [by apply Htemp|done].
  - destruct (confirm_bulk_frame data w) as (w' & zip & Hrun & _ & _ & Hframe & _).
    eexists _, _. split; [exact Hrun|]. intros p Hp _. by apply Hframe, Htemp.
  - unfold download_file.
    destruct (fs w !! _); eexists _, _; split; reflexivity.
Qed.



End MoreOnFiles.

Lemma existing_files_are_kept_witness :
  let r := PostConfirmSingle (Item "a" "A" ".png") in
  (plain_request r = true
   ∧ plain_name "A.png" = true
   ∧ fs sample_world !! OsPath.join UPLOAD_FOLDER "A.png"
     = Some (Bytes "PNGIMG-old")
   ∧ (@serve sample_externals r sample_world).2
     = Ok (DownloadLink "/download/A_1.png"))
  ∧ ∃ w' resp,
      @serve sample_externals r sample_world = (w', Ok resp)
      ∧ ∀ name, plain_name name = true →
          is_Some (fs sample_world !! OsPath.join UPLOAD_FOLDER name) →
          fs w' !! OsPath.join UPLOAD_FOLDER name
          = fs sample_world !! OsPath.join UPLOAD_FOLDER name.
Proof.
  cbv zeta. split; [repeat split; vm_compute; reflexivity|].
  apply (@existing_files_are_kept sample_externals
           (PostConfirmSingle (Item "a" "A" ".png")) sample_world).
  reflexivity.
Defined.


Section MoreOnUpload.
Context `{E : Externals}.
Import PyStr Naming StrFacts NamingFacts PathFacts.
Local Open Scope nat_scope.

Lemma request_files_single mode form :
  mode ≠ "bulk" → length (request_files mode form) ≤ 1.
Proof.
  intros Hmode. unfold request_files.
  rewrite bool_decide_eq_false_2 by done.
  destruct (form_image form) as [file|]; [|cbn [length]; lia].
  case_bool_decide; cbn [length]; lia.
Qed.

(** X9. In [/upload] the answer "Single mode requires exactly one
    image" is never given: in every mode other than ["bulk"] the handler
    works on at most one file, the form's [image] when it has a file name,
    so once the list is non-empty the test [len(files) != 1] fails.  A
    request without such a file is answered 400 "No image uploaded" with
    nothing changed. *)
Theorem upload_never_asks_for_exactly_one (form : upload_form) (w : world) :
  (upload form w).2
  ≠ Ok (JsonError 400 "Single mode requires exactly one image")
  ∧ (default "single" (form_mode form) ≠ "bulk" →
       length (request_files (default "single" (form_mode form)) form) ≤ 1)
  ∧ (request_files (default "single" (form_mode form)) form = [] →
       upload form w = (w, Ok (JsonError 400 "No image uploaded"))).
Proof.
  split; [|split].
  - unfold upload, try_except. cbv zeta.
    set (mode := default "single" (form_mode form)).
    set (files := request_files mode form).
    case_bool_decide as Hfiles; [done|].
    assert (Hone : bool_decide (mode = "single") && negb (length files =? 1)
                   = false).
    { case_bool_decide as Hmode; [|done]. cbn [andb].
      assert (Hlen : length files ≤ 1).
      { apply request_files_single. by rewrite Hmode. }
      destruct files as [|f [|g files]]; [done|done|cbn [length] in Hlen; lia]. }
    rewrite Hone. unfold bind.
    destruct (stage_loop_run false files w) as (w' & results & -> & _).
    cbv beta iota. by destruct (bool_decide (results = [])).
  - apply request_files_single.
  - intros Hnone. unfold upload, try_except. cbv zeta. by rewrite Hnone.
Qed.

(** The descriptors that the loop of the upload routes returns. *)
Lemma stage_loop_previews with_filename files w :
  ∃ w' results ns,
    for_enumerate (stage_file with_filename) 0 files [] w = (w', Ok results)
    ∧ length results ≤ length files
    ∧ entropy w ≤ entropy w' ≤ entropy w + length files
    ∧ pv_id <$> results = uuid4 <$> ns
    ∧ increasing_calls ns
    ∧ Forall (λ n, entropy w ≤ n < entropy w') ns
    ∧ Forall (λ r, pv_preview r = OsPath.join temp_dir (pv_id r +:+ pv_ext r)
                   ∧ (is_Some (pv_filename r) ↔ with_filename = true))
        results.
Proof.
  set (P := λ (i : nat) (w' : world) (results : list preview),
    ∃ ns,
      length results ≤ i
      ∧ entropy w ≤ entropy w' ≤ entropy w + i
      ∧ pv_id <$> results = uuid4 <$> ns
      ∧ increasing_calls ns
      ∧ Forall (λ n, entropy w ≤ n < entropy w') ns
      ∧ Forall (λ r, pv_preview r = OsPath.join temp_dir (pv_id r +:+ pv_ext r)
                     ∧ (is_Some (pv_filename r) ↔ with_filename = true))
          results).
  destruct (for_enumerate_inv (stage_file with_filename) files P)
    with (acc := @nil preview) (w := w)
    as (w' & results & Hrun & ns & Hlen & Hent & Hids & Hsort & Hns & Hres).
  - intros i file results w1 _ (ns & Hlen & Hent & Hids & Hsort & Hns & Hres).
    pose proof (stage_file_run with_filename i file results w1) as Hrun.
    cbv zeta in Hrun.
    assert (Hwiden : ∀ m, entropy w1 ≤ m →
      Forall (λ n, entropy w ≤ n < m) ns).
    { intros m Hm. eapply Forall_impl; [done|]. intros n ?. cbn beta in *. lia. }
    case_bool_decide.
    + eexists _, _. split; [exact Hrun|]. exists ns.
      split; [lia|]. split; [lia|]. done.
    + destruct (cv2_decode (stream file)) as [img|].
      * destruct Hrun as [text Hrun]. eexists _, _. split; [exact Hrun|].
        exists (ns ++ [entropy w1])%list. cbn [entropy store tick].
        split; [rewrite length_app; cbn [length]; lia|]. split; [lia|].
        split; [by rewrite !fmap_app, Hids|]. split; [|split].
        -- intros j k n1 n2 Hj Hk Hjk.
           apply lookup_app_Some in Hk as [Hk|[Hk1 Hk2]].
           ++ apply lookup_app_Some in Hj as [Hj|[Hj1 _]];
                [by eapply Hsort|apply lookup_lt_Some in Hk; lia].
           ++ apply list_lookup_singleton_Some in Hk2 as [Hk0 <-].
              apply lookup_app_Some in Hj as [Hj|[Hj1 Hj2]].
              ** eapply Forall_lookup_1 in Hns; [|done]. cbn beta in Hns. lia.
              ** apply list_lookup_singleton_Some in Hj2 as [Hj0 _]. lia.
        -- apply Forall_app. split; [apply Hwiden; lia|].
           apply Forall_singleton. lia.
        -- apply Forall_app. split; [done|]. apply Forall_singleton.
           cbn [pv_preview pv_id pv_ext pv_filename]. split; [done|].
           destruct with_filename; split; try done; by intros [??].
      * eexists _, _. split; [exact Hrun|]. exists ns. cbn [entropy unlink store tick].
        split; [lia|]. split; [lia|]. split; [done|]. split; [done|].
        split; [apply Hwiden; lia|done].
  - exists []. cbn [length fmap list_fmap]. split; [lia|]. split; [lia|].
    split; [done|]. split; [by intros j k n1 n2 Hj|]. split; constructor.
  - exists w', results, ns. split; [done|]. split; [done|]. split; [lia|].
    done.
Qed.

(** X10. What [/upload] and [/upload_brand_slides] hand back.  A success
    response lists at most one descriptor per uploaded file; the [preview]
    of each is the staging path that the confirm routes rebuild from its
    [id] and [ext]; the ids are the results of successive [uuid4()] calls of
    this request, in order; only [/upload_brand_slides] reports the file
    name.  The request writes below the staging directory only: the
    permanent storage and the catalog are as before. *)
Theorem upload_returns_staging_descriptors :
  (∀ form w w' mode results,
     upload form w = (w', Ok (UploadJson mode results)) →
     ∃ ns,
       length results
       ≤ length (request_files (default "single" (form_mode form)) form)
       ∧ pv_id <$> results = uuid4 <$> ns
       ∧ increasing_calls ns
       ∧ Forall (λ n, entropy w ≤ n < entropy w') ns
       ∧ Forall (λ r, pv_preview r
                      = temp_path_of (Item (pv_id r) "" (pv_ext r))
                      ∧ pv_filename r = None) results
       ∧ (∀ p, in_upload_folder p → fs w' !! p = fs w !! p)
       ∧ catalog w' = catalog w)
  ∧ (∀ files w w' mode results,
       upload_brand_slides files w = (w', Ok (UploadJson mode results)) →
       ∃ ns,
         length results ≤ length files
         ∧ pv_id <$> results = uuid4 <$> ns
         ∧ increasing_calls ns
         ∧ Forall (λ n, entropy w ≤ n < entropy w') ns
         ∧ Forall (λ r, pv_preview r
                        = temp_path_of (Item (pv_id r) "" (pv_ext r))
                        ∧ is_Some (pv_filename r)) results
         ∧ (∀ p, in_upload_folder p → fs w' !! p = fs w !! p)
         ∧ catalog w' = catalog w).
Proof.
  assert (Hframe : ∀ b files w w' results,
    for_enumerate (stage_file b) 0 files [] w = (w', Ok results) →
    (∀ p, in_upload_folder p → fs w' !! p = fs w !! p)
    ∧ catalog w' = catalog w).
  { intros b files w w' results Hloop.
    destruct (stage_loop_run b files w) as (w1 & results1 & Hloop1 & Hfs).
    rewrite Hloop in Hloop1. injection Hloop1 as <- <-. split.
    - intros p Hp. apply Hfs. intros Ht.
      by apply is_temp_path_not_in_upload_folder in Ht.
    - apply catalog_unchanged, Hfs, is_temp_path_not_db. }
  split.
  - intros form w w' mode results. unfold upload, try_except. cbv zeta.
    set (files := request_files _ form).
    case_bool_decide; [done|]. destruct (_ && _); [done|]. unfold bind.
    destruct (stage_loop_previews false files w)
      as (w1 & results1 & ns & Hloop & Hlen & _ & Hids & Hsort & Hns & Hres).
    rewrite Hloop. case_bool_decide; [done|]. intros [= <- _ <-].
    destruct (Hframe _ _ _ _ _ Hloop) as [Hup Hcat].
    exists ns. split; [done|]. split; [done|]. split; [done|]. split; [done|].
    split; [|done]. eapply Forall_impl; [done|]. intros r [Hp Hf].
    split; [done|]. destruct (pv_filename r) eqn:Hfn; [|done].
    by destruct Hf as [Hf _]; specialize (Hf (mk_is_Some _ _ eq_refl)).
  - intros files w w' mode results. unfold upload_brand_slides, try_except.
    case_bool_decide; [done|]. unfold bind.
    destruct (stage_loop_previews true files w)
      as (w1 & results1 & ns & Hloop & Hlen & _ & Hids & Hsort & Hns & Hres).
    rewrite Hloop. case_bool_decide; [done|]. intros [= <- _ <-].
    destruct (Hframe _ _ _ _ _ Hloop) as [Hup Hcat].
    exists ns. split; [done|]. split; [done|]. split; [done|]. split; [done|].
    split; [|done]. eapply Forall_impl; [done|]. intros r [Hp Hf].
    split; [done|]. by apply Hf.
Qed.


Lemma stage_file_staged with_filename i file results img w :
  secure_filename (filename file) ≠ "" →
  cv2_decode (stream file) = Some img →
  let unique_id := uuid4 (entropy w) in
  let ext := (splitext (secure_filename (filename file))).2 in
  let tp := OsPath.join temp_dir (unique_id +:+ ext) in
  let w1 := store tp (Bytes (stream file)) (tick w) in
  ∃ text,
    extract_main_text tp w1 = (w1, Ok text)
    ∧ stage_file with_filename i file results w
      = (w1, Ok (results ++ [Preview unique_id text tp ext
                   (if with_filename then Some (secure_filename (filename file))
                    else None)])%list).
Proof.
  intros Hname Hdec. cbv zeta. unfold stage_file. cbv zeta.
  rewrite bool_decide_eq_false_2 by done.
  unfold bind at 1. unfold uuid_uuid4.
  destruct (splitext (secure_filename (filename file))) as [name ext].
  cbn [snd]. unfold bind, write_file, cv2_imread. cbv beta iota.
  rewrite lookup_store_eq. cbn [decoded]. rewrite Hdec.
  rewrite extract_main_text_run. eexists. split; reflexivity.
Qed.

(** X11. Upload, then confirm.  When [/upload] in a mode other than
    ["bulk"] receives one image file that decodes, it answers with one
    descriptor whose id is the fresh uuid, whose text is what
    [extract_main_text] returns for the staged file, and whose preview path
    holds the uploaded bytes.  A [/confirm_single] with that id and
    extension and any text then finds the staged file: it never answers 404
    or "Failed to process image", but with the download link of a file named
    after the stripped text, or with "Failed to save image"; either way the
    staged file is gone afterwards. *)
Theorem upload_then_confirm_single
    (form : upload_form) (file : file_storage) (img : image) (w : world) :
  default "single" (form_mode form) ≠ "bulk" →
  form_image form = Some file →
  filename file ≠ "" →
  secure_filename (filename file) ≠ "" →
  cv2_decode (stream file) = Some img →
  let id_ := uuid4 (entropy w) in
  let ext := (splitext (secure_filename (filename file))).2 in
  let tp := temp_path_of (Item id_ "" ext) in
  ∃ w1 ocr_text,
    upload form w
    = (w1, Ok (UploadJson (Some (default "single" (form_mode form)))
                 [Preview id_ ocr_text tp ext None]))
    ∧ extract_main_text tp w1 = (w1, Ok ocr_text)
    ∧ fs w1 !! tp = Some (Bytes (stream file))
    ∧ ∀ text,
        ∃ w2 r,
          confirm_single (Item id_ text ext) w1 = (w2, Ok r)
          ∧ fs w2 !! tp = None
          ∧ (r = JsonError 500 "Failed to save image"
             ∨ ∃ name, r = DownloadLink ("/download/" +:+ name)
                 ∧ named_after text name).
Proof.
  intros Hmode Himage Hfile Hname Hdec. cbv zeta.
  destruct (stage_file_staged false 0 file [] img w Hname Hdec)
    as (ocr_text & Hocr & Hstage). cbv zeta in Hocr, Hstage.
  set (tp := OsPath.join temp_dir _) in *.
  set (w1 := store tp _ _) in *.
  exists w1, ocr_text.
  assert (Hfiles : request_files (default "single" (form_mode form)) form
                   = [file]).
  { unfold request_files. rewrite bool_decide_eq_false_2 by done.
    rewrite Himage. by rewrite bool_decide_eq_false_2. }
  split; [|split; [done|split; [apply lookup_store_eq|]]].
  - unfold upload, try_except. cbv zeta. rewrite Hfiles.
    rewrite bool_decide_eq_false_2 by done.
    cbn [length Nat.eqb negb]. rewrite andb_false_r.
    cbn [for_enumerate]. unfold bind. rewrite Hstage. cbn [app].
    unfold ret. by rewrite bool_decide_eq_false_2.
  - intros text.
    pose proof (confirm_single_run (Item (uuid4 (entropy w)) text
      (splitext (secure_filename (filename file))).2) w1) as Hrun.
    cbv zeta in Hrun. unfold temp_path_of in Hrun. cbn [item_id item_ext item_text] in Hrun.
    fold tp in Hrun. unfold w1 at 1 in Hrun. rewrite lookup_store_eq in Hrun.
    cbn [decoded] in Hrun. rewrite Hdec in Hrun.
    destruct Hrun as (name & Hfree & Hrun).
    destruct (cv2_imwrite_png _ img) as [b|];
      eexists _, _; (split; [exact Hrun|]); (split; [apply lookup_unlink_eq|]).
    + right. exists name. split; [done|]. by eapply first_free_named_after.
    + by left.
Qed.

End MoreOnUpload.

Lemma upload_then_confirm_single_witness :
  let form := UploadForm None [] (Some (FileStorage "photo.jpg" "IMG-P")) in
  ∃ w1 ocr_text,
    @upload sample_externals form sample_world
    = (w1, Ok (UploadJson (Some "single")
                 [Preview "uuid0" ocr_text "static/temp/uuid0.jpg" ".jpg" None]))
    ∧ @extract_main_text sample_externals "static/temp/uuid0.jpg" w1
      = (w1, Ok ocr_text)
    ∧ fs w1 !! "static/temp/uuid0.jpg" = Some (Bytes "IMG-P")
    ∧ ∀ text,
        ∃ w2 r,
          @confirm_single sample_externals (Item "uuid0" text ".jpg") w1
          = (w2, Ok r)
          ∧ fs w2 !! "static/temp/uuid0.jpg" = None
          ∧ (r = JsonError 500 "Failed to save image"
             ∨ ∃ name, r = DownloadLink ("/download/" +:+ name)
                 ∧ named_after text name).
Proof.
  cbv zeta.
  exact (@upload_then_confirm_single sample_externals
           (UploadForm None [] (Some (FileStorage "photo.jpg" "IMG-P")))
           (FileStorage "photo.jpg" "IMG-P") "IMG-P" sample_world
           ltac:(discriminate) eq_refl ltac:(discriminate) ltac:(discriminate)
           eq_refl).
Defined.

(** [/upload] run on two files, the second of which is no image. *)
Example upload_skips_what_is_no_image :
  (@upload sample_externals
     (UploadForm (Some "bulk")
        [FileStorage "x.png" "IMG-X"; FileStorage "y.png" "junk"] None)
     sample_world).2
  = Ok (UploadJson (Some "bulk")
          [Preview "uuid0" "IMG-X" "static/temp/uuid0.png" ".png" None]).
Proof. by vm_compute. Qed.

Section MoreOnRepeats.
Context `{E : Externals}.
Import PyStr Naming StrFacts NamingFacts PathFacts.
Local Open Scope nat_scope.

Lemma save_loop_absent slides i acc w :
  (∀ it, it ∈ slides → fs w !! temp_path_of it = None) →
  for_enumerate save_slide i slides acc w = (w, Ok acc).
Proof.
  revert i. induction slides as [|it slides IH]; intros i Habsent; [done|].
  destruct acc as [saved zip].
  pose proof (save_slide_run i it saved zip w) as Hrun. cbv zeta in Hrun.
  rewrite (Habsent it) in Hrun by apply list_elem_of_here.
  rewrite (for_enumerate_cons _ _ _ _ _ _ _ _ Hrun).
  apply IH. intros it' Hit'. by apply Habsent, list_elem_of_further.
Qed.

(** X12. [/save_brand_visual] consumes its staged files and is not
    repeatable: after a successful request with plain slides no staged
    file of any of its slides is left, and the same request sent again
    succeeds too, with an empty archive, and appends a second entry, of the
    same brand and sequence, without images. *)
Theorem save_brand_visual_twice (data : save_request) (w w' : world) (zip : archive) :
  forallb plain_item (default [] (slides data)) = true →
  save_brand_visual data w
  = (w', Ok (ZipAttachment "brand_visual_slides.zip" zip)) →
  (∀ slide, slide ∈ default [] (slides data) →
     fs w' !! temp_path_of slide = None)
  ∧ ∃ entries,
      catalog w' = Some entries
      ∧ ∃ w'',
          save_brand_visual data w'
          = (w'', Ok (ZipAttachment "brand_visual_slides.zip" []))
          ∧ catalog w''
            = Some (entries ++ [DbEntry (uuid4 (entropy w'))
                                  (strip (default "" (brandName data)))
                                  (default 1%Z (sequence data)) []
                                  (now_isoformat (S (entropy w')))])%list.
Proof.
  intros _ Hsave.
  pose proof (save_brand_visual_run data w) as Hrun. cbv zeta in Hrun.
  destruct (bool_decide (strip (default "" (brandName data)) = "")) eqn:Hbrand;
    [by rewrite Hsave in Hrun|].
  destruct (bool_decide (default [] (slides data) = [])) eqn:Hslides;
    [by rewrite Hsave in Hrun|].
  clear Hrun. assert (Hbrand' := Hbrand). assert (Hslides' := Hslides).
  apply bool_decide_eq_false in Hbrand', Hslides'.
  destruct (save_brand_visual_success_inv _ _ _ _ Hsave)
    as (db & w1 & saved & Hdb & Hloop & Hw').
  destruct (save_brand_visual_succeeds data w db Hbrand' Hslides' Hdb)
    as (w2 & entry & zip2 & Hrun2 & Hcat & _ & _ & _ & _ & _ & Hgone).
  rewrite Hsave in Hrun2. injection Hrun2 as <- <-.
  split; [done|]. exists (db ++ [entry])%list. split; [done|].
  pose proof (save_brand_visual_run data w') as Hrun. cbv zeta in Hrun.
  rewrite Hbrand, Hslides, Hcat in Hrun. cbn [orb] in Hrun.
  destruct Hrun as (w3 & saved3 & zip3 & Hloop3 & Hrun).
  rewrite save_loop_absent in Hloop3 by done.
  injection Hloop3 as <- <- <-.
  eexists. split; [exact Hrun|]. apply catalog_store_db.
Qed.

(** X13. Two confirms of the same text get different files.  When a
    [/confirm_single] of a plain item has returned a download link and a
    later [/confirm_single] of a plain item whose text strips to the same
    string returns one too, the second file name carries a counter suffix,
    the two links differ, and both files are in permanent storage
    afterwards. *)
Theorem same_text_gets_a_numbered_name
    (first second : item) (w w1 w2 : world) (link1 link2 : string) :
  plain_item first = true →
  plain_item second = true →
  strip (item_text first) = strip (item_text second) →
  confirm_single first w = (w1, Ok (DownloadLink link1)) →
  confirm_single second w1 = (w2, Ok (DownloadLink link2)) →
  ∃ name1 (counter : nat),
    link1 = "/download/" +:+ name1
    ∧ 1 ≤ counter
    ∧ link2 = "/download/"
              +:+ numbered (safe_name (strip (item_text second))) counter
    ∧ link1 ≠ link2
    ∧ is_Some (fs w2 !! OsPath.join UPLOAD_FOLDER name1)
    ∧ is_Some (fs w2 !! OsPath.join UPLOAD_FOLDER
                 (numbered (safe_name (strip (item_text second))) counter)).
Proof.
  intros _ _ Htext Hrun1 Hrun2.
  set (safe := safe_name (strip (item_text second))).
  assert (Hinv : ∀ data wa wb link,
    confirm_single data wa = (wb, Ok (DownloadLink link)) →
    ∃ name b,
      link = "/download/" +:+ name
      ∧ first_free_name (exists_in_uploads (fs wa))
          (safe_name (strip (item_text data))) name
      ∧ wb = unlink (temp_path_of data)
               (store (OsPath.join UPLOAD_FOLDER name) (Bytes b) wa)).
  { intros data wa wb link Hrun.
    pose proof (confirm_single_run data wa) as Hspec. cbv zeta in Hspec.
    destruct (fs wa !! temp_path_of data) as [c|]; [|by rewrite Hrun in Hspec].
    destruct (decoded (Some c)) as [img|]; [|by rewrite Hrun in Hspec].
    destruct Hspec as (name & Hname & Hspec).
    destruct (cv2_imwrite_png _ img) as [b|]; [|by rewrite Hrun in Hspec].
    rewrite Hrun in Hspec. injection Hspec as -> ->. by exists name, b. }
  assert (Hstays : ∀ data name b wa p,
    in_upload_folder p →
    is_Some (fs wa !! p) ∨ p = OsPath.join UPLOAD_FOLDER name →
    is_Some (fs (unlink (temp_path_of data)
                   (store (OsPath.join UPLOAD_FOLDER name) (Bytes b) wa)) !! p)).
  { intros data name b wa p Hp Hcase. rewrite lookup_unlink. case_decide as Heq.
    - symmetry in Heq. by apply (in_upload_folder_not_temp _ _ Hp) in Heq.
    - destruct (decide (OsPath.join UPLOAD_FOLDER name = p)) as [<-|Hne].
      + rewrite lookup_store_eq. by eexists.
      + rewrite lookup_store_ne by done. by destruct Hcase. }
  destruct (Hinv _ _ _ _ Hrun1) as (name1 & b1 & -> & Hfree1 & ->).
  destruct (Hinv _ _ _ _ Hrun2) as (name2 & b2 & -> & Hfree2 & ->).
  rewrite Htext in Hfree1. fold safe in Hfree1, Hfree2.
  assert (Hup1 : in_upload_folder (OsPath.join UPLOAD_FOLDER name1))
    by by eapply policy_name_in_upload_folder.
  assert (Hup2 : in_upload_folder (OsPath.join UPLOAD_FOLDER name2))
    by by eapply policy_name_in_upload_folder.
  set (wmid := unlink (temp_path_of first)
                 (store (OsPath.join UPLOAD_FOLDER name1) (Bytes b1) w)) in *.
  assert (Hplain : exists_in_uploads (fs wmid) (safe +:+ ".png") = true).
  { apply bool_decide_eq_true. apply Hstays.
    { apply upload_path_in_upload_folder;
        [apply safe_name_nonempty|apply safe_name_keep]. }
    destruct Hfree1 as [_ [[_ ->]|[Htaken _]]]; [by right|].
    left. by apply bool_decide_eq_true in Htaken. }
  assert (Hname1 : exists_in_uploads (fs wmid) name1 = true).
  { apply bool_decide_eq_true. apply Hstays; [done|by right]. }
  destruct Hfree2 as [Hfree2 [[Hno _]|[_ (counter & Hcounter & -> & _)]]];
    [by rewrite Hplain in Hno|].
  exists name1, counter. split; [done|]. split; [done|]. split; [done|].
  split; [|split].
  - intros Heq. apply (inj (String.app "/download/")) in Heq.
    rewrite Heq, Hfree2 in Hname1. done.
  - apply Hstays; [done|]. left. by apply bool_decide_eq_true in Hname1.
  - apply Hstays; [done|by right].
Qed.

End MoreOnRepeats.

Lemma save_brand_visual_twice_witness :
  let out := @save_brand_visual sample_externals sample_save_request
               sample_world in
  forallb plain_item (default [] (slides sample_save_request)) = true
  ∧ out.2 = Ok (ZipAttachment "brand_visual_slides.zip"
                  [("B.png", "PNGIMG-B"); ("A_1.png", "PNGIMG-A")])
  ∧ (∀ slide, slide ∈ [Item "b" " B " ".png"; Item "a" "A" ".png"] →
       fs out.1 !! temp_path_of slide = None)
  ∧ ∃ entries,
      catalog out.1 = Some entries
      ∧ ∃ w'',
          @save_brand_visual sample_externals sample_save_request out.1
          = (w'', Ok (ZipAttachment "brand_visual_slides.zip" []))
          ∧ catalog w''
            = Some (entries ++ [DbEntry "uuid2" "Acme" 7 [] "t3"])%list.
Proof.
  cbv zeta. split; [reflexivity|]. split; [vm_compute; reflexivity|].
  assert (Hfirst :
    @save_brand_visual sample_externals sample_save_request sample_world
    = ((@save_brand_visual sample_externals sample_save_request
          sample_world).1,
       Ok (ZipAttachment "brand_visual_slides.zip"
             [("B.png", "PNGIMG-B"); ("A_1.png", "PNGIMG-A")])))
    by by vm_compute.
  exact (@save_brand_visual_twice sample_externals sample_save_request
           sample_world _ _ eq_refl Hfirst).
Defined.

Lemma same_text_gets_a_numbered_name_witness :
  let first := Item "a" " New " ".png" in
  let second := Item "b" "New" ".png" in
  let out1 := @confirm_single sample_externals first sample_world in
  let out2 := @confirm_single sample_externals second out1.1 in
  (plain_item first = true ∧ plain_item second = true
   ∧ out1.2 = Ok (DownloadLink "/download/New.png")
   ∧ out2.2 = Ok (DownloadLink "/download/New_1.png"))
  ∧ ∃ name1 (counter : nat),
      "/download/New.png" = "/download/" +:+ name1
      ∧ (1 ≤ counter)%nat
      ∧ "/download/New_1.png"
        = "/download/"
          +:+ Naming.numbered (Naming.safe_name (PyStr.strip "New")) counter
      ∧ "/download/New.png" ≠ "/download/New_1.png"
      ∧ is_Some (fs out2.1 !! OsPath.join UPLOAD_FOLDER name1)
      ∧ is_Some (fs out2.1 !! OsPath.join UPLOAD_FOLDER
                   (Naming.numbered (Naming.safe_name (PyStr.strip "New"))
                      counter)).
Proof.
  cbv zeta.
  split; [repeat split; vm_compute; reflexivity|].
  apply (@same_text_gets_a_numbered_name sample_externals
           (Item "a" " New " ".png") (Item "b" "New" ".png") sample_world
           (@confirm_single sample_externals (Item "a" " New " ".png")
              sample_world).1);
    by vm_compute.
Defined.
